(** * WebSinu grades agent: a shallow embedding of [main.py]

    The development follows the three parts of the program:
    - [login_websinu]: the login handshake against the portal,
    - [get_grades]: fetching the grades page and scanning its rows,
    - [compare_grades]: the diff of two grade snapshots.

    Python strings are sequences of Unicode code points, dictionaries used
    as maps are finite maps, the HTTP session and the log file are threaded
    as explicit state, and exceptions are values of an error monad.

    The portal and the HTML parser are parameters of the program. A grade
    is a record with the six keys [get_grades] writes; [log_message] and
    [BeautifulSoup] are taken to return, so the exceptions of the model are
    those of [session.post], [raise_for_status] and indexing a tag by a
    missing attribute.

    Around them the script of [main.py] is modelled too: the notifications
    of [send_ntfy_notification], the snapshot files of
    [load_previous_grades] and [save_current_grades], and the loop over the
    users with its pause. There the ntfy server, the environment and the
    failures of the file system are parameters as well, and the further
    exceptions are those of [requests.post], of [message.encode], of
    [json.load] and of writing a file. *)

From Stdlib Require Import ZArith NArith Lia DecimalString.
From stdpp Require Import base list gmap strings.

Local Open Scope N_scope.

(** ** Python strings *)

(** A Python [str] is a sequence of code points. *)
Abbreviation pystr := (list N).

(** An ASCII literal of the source, as a [str]. *)
Definition py (s : string) : pystr :=
  Ascii.N_of_ascii <$> String.list_ascii_of_string s.
Arguments py : simpl never.

(** [str.isspace] on one code point (CPython's [Py_UNICODE_ISSPACE]). *)
Definition isspace (c : N) : bool :=
  ((9 <=? c) && (c <=? 13)) || ((28 <=? c) && (c <=? 32))
  || (c =? 133) || (c =? 160) || (c =? 5760)
  || ((8192 <=? c) && (c <=? 8202))
  || (c =? 8232) || (c =? 8233) || (c =? 8239) || (c =? 8287)
  || (c =? 12288).

(** U+00A0, written ['\xa0'] and ['\u00a0'] in the source. *)
Definition nbsp : N := 160.
(** U+0020, the regular space. *)
Definition space : N := 32.
(** U+000A, the newline. *)
Definition newline : N := 10.

(** [s.lstrip()] *)
Fixpoint lstrip (s : pystr) : pystr :=
  match s with
  | [] => []
  | c :: t => if isspace c then lstrip t else s
  end.

(** [s.rstrip()] *)
Definition rstrip (s : pystr) : pystr := reverse (lstrip (reverse s)).

(** [s.strip()] *)
Definition strip (s : pystr) : pystr := rstrip (lstrip s).

(** [s.replace(old, new)] for one-character [old] and [new], the only form
    the source uses. *)
Definition replace (old new : N) (s : pystr) : pystr :=
  (λ c, if c =? old then new else c) <$> s.

(** [s.startswith(p)] *)
Fixpoint startswith (p s : pystr) : bool :=
  match p, s with
  | [], _ => true
  | _ :: _, [] => false
  | a :: p', b :: s' => (a =? b) && startswith p' s'
  end.

(** [sub in s] *)
Fixpoint contains (sub s : pystr) : bool :=
  startswith sub s ||
  match s with
  | [] => false
  | _ :: t => contains sub t
  end.

(** [s[:n]] *)
Definition slice_to (n : nat) (s : pystr) : pystr := take n s.

(** [str(i)] for an integer. *)
Definition str_of_int (i : Z) : pystr :=
  py (NilZero.string_of_int (Z.to_int i)).
Arguments str_of_int : simpl never.

(** [bool(s)] for a string. *)
Definition truthy (s : pystr) : bool :=
  match s with [] => false | _ => true end.

(** ** Grade records and the diff engine *)

(** The dictionary appended by [get_grades], with its six keys. *)
Record Grade := mkGrade {
  year : pystr;
  semester : pystr;
  subject : pystr;
  type_ : pystr;
  date : pystr;
  grade : pystr
}.

(** The dictionary appended to [changed_grade_entries]. *)
Record ChangeEntry := mkChange {
  old_grade : pystr;
  new_grade : pystr;
  ch_subject : pystr;
  ch_year : pystr;
  ch_semester : pystr;
  ch_date : pystr
}.

#[global] Instance Grade_eq_dec : EqDecision Grade.
Proof. solve_decision. Defined.
#[global] Instance ChangeEntry_eq_dec : EqDecision ChangeEntry.
Proof. solve_decision. Defined.

(** [key = (grade['subject'], grade['year'], grade['semester'])] *)
Definition key_of (g : Grade) : pystr * pystr * pystr :=
  (subject g, year g, semester g).

(** The first loop of [compare_grades]: [old_grades_map[key] = grade['grade']]
    for every old grade in order. *)
Definition old_grades_map (old_grades : list Grade)
  : gmap (pystr * pystr * pystr) pystr :=
  foldl (λ m g, <[key_of g := grade g]> m) ∅ old_grades.

(** The dictionary literal of the [elif] branch. *)
Definition change_entry (stored : pystr) (new_grade : Grade) : ChangeEntry :=
  {| old_grade := stored;
     new_grade := grade new_grade;
     ch_subject := subject new_grade;
     ch_year := year new_grade;
     ch_semester := semester new_grade;
     ch_date := date new_grade |}.

(** One iteration of the second loop, on the pair
    [(new_grade_entries, changed_grade_entries)]. *)
Definition compare_step (m : gmap (pystr * pystr * pystr) pystr)
    (acc : list Grade * list ChangeEntry) (new_grade : Grade)
  : list Grade * list ChangeEntry :=
  match m !! key_of new_grade with
  | None => (acc.1 ++ [new_grade], acc.2)
  | Some stored =>
      if decide (stored ≠ grade new_grade)
      then (acc.1, acc.2 ++ [change_entry stored new_grade])
      else acc
  end.

Definition compare_grades (old_grades new_grades : list Grade)
  : list Grade * list ChangeEntry :=
  foldl (compare_step (old_grades_map old_grades)) ([], []) new_grades.

(** ** Sample snapshots

    Concrete records used to run the diff engine. *)

Definition sample_grade (subj gr : string) : Grade :=
  {| year := py "1"; semester := py "1"; subject := py subj;
     type_ := py "E"; date := py "2024-01-10"; grade := py gr |}.

Definition algebra_7 : Grade := sample_grade "Algebra" "7".
Definition algebra_9 : Grade := sample_grade "Algebra" "9".
Definition databases_8 : Grade := sample_grade "Databases" "8".

(** ** The document tree built by [BeautifulSoup(text, 'html.parser')]

    A tag has a name, an attribute dictionary and its contents; under the
    [html.parser] tree builder an attribute value is the string of the markup,
    except [class], which [tag['class']] yields as the list of its
    whitespace-separated tokens. *)

#[local] Set Warnings "-register-all".
Inductive node :=
| Tag (name : pystr) (attrs : gmap pystr pystr) (contents : list node)
| NavigableString (s : pystr)
| Comment (s : pystr).

(** A node of a tree together with its [.parent] chain, nearest first. *)
Record element := mkElement {
  el_node : node;
  el_parents : list node
}.

(** The [BeautifulSoup] object: the root of the tree. *)
Definition soup_root (doc : node) : element :=
  {| el_node := doc; el_parents := [] |}.

Definition node_contents (n : node) : list node :=
  match n with
  | Tag _ _ cs => cs
  | _ => []
  end.

Definition node_attrs (n : node) : gmap pystr pystr :=
  match n with
  | Tag _ a _ => a
  | _ => ∅
  end.

(** The node is a tag called [nm]. *)
Definition is_tag_named (nm : pystr) (n : node) : bool :=
  match n with
  | Tag nm' _ _ => bool_decide (nm' = nm)
  | _ => false
  end.

(** [n] and everything below it, in document order, each with its parents. *)
Fixpoint subtree (parents : list node) (n : node) : list element :=
  {| el_node := n; el_parents := parents |} ::
  match n with
  | Tag _ _ cs => flat_map (subtree (n :: parents)) cs
  | _ => []
  end.

(** [e.children] *)
Definition children (e : element) : list element :=
  (λ c, {| el_node := c; el_parents := el_node e :: el_parents e |})
    <$> node_contents (el_node e).

(** [e.descendants] *)
Definition descendants (e : element) : list element :=
  flat_map (subtree (el_node e :: el_parents e)) (node_contents (el_node e)).

(** [e.find_all(nm)] *)
Definition find_all (nm : pystr) (e : element) : list element :=
  List.filter (λ d, is_tag_named nm (el_node d)) (descendants e).

(** [e.find_all(nm, recursive=False)] *)
Definition find_all_children (nm : pystr) (e : element) : list element :=
  List.filter (λ d, is_tag_named nm (el_node d)) (children e).

(** [e.find(nm)] *)
Definition find (nm : pystr) (e : element) : option element :=
  head (find_all nm e).

(** Every [k: v] of the attribute filter is an attribute of the node. *)
Definition has_attrs (want : list (pystr * pystr)) (n : node) : bool :=
  forallb (λ kv, bool_decide (node_attrs n !! kv.1 = Some kv.2)) want.

(** [e.find(nm, {k: v, ...})] *)
Definition find_with (nm : pystr) (want : list (pystr * pystr)) (e : element)
  : option element :=
  head (List.filter (λ d, has_attrs want (el_node d)) (find_all nm e)).

(** [e.find_parent(nm)]: the nearest enclosing tag called [nm]. *)
Definition find_parent (nm : pystr) (e : element) : option node :=
  head (List.filter (is_tag_named nm) (el_parents e)).

(** The tokens of [re.findall(r'\S+', s)]; [cur] is the token being read,
    reversed. *)
Fixpoint split_tokens (cur : pystr) (s : pystr) : list pystr :=
  match s with
  | [] => match cur with [] => [] | _ => [reverse cur] end
  | c :: t =>
      if isspace c
      then match cur with
           | [] => split_tokens [] t
           | _ => reverse cur :: split_tokens [] t
           end
      else split_tokens (c :: cur) t
  end.

(** [tag['class']], when [tag] has the attribute. *)
Definition tag_class (n : node) : option (list pystr) :=
  split_tokens [] <$> node_attrs n !! py "class".

(** [n.string] *)
Fixpoint string_of (n : node) : option pystr :=
  match n with
  | NavigableString s => Some s
  | Comment s => Some s
  | Tag _ _ [c] => string_of c
  | Tag _ _ _ => None
  end.

(** The strings [get_text] sees below a node: text nodes in document order,
    comments left out. *)
Fixpoint all_strings (n : node) : list pystr :=
  match n with
  | NavigableString s => [s]
  | Comment _ => []
  | Tag _ _ cs => flat_map all_strings cs
  end.

(** [n.get_text(strip=True)]: every string stripped, the empty ones dropped,
    the rest joined without separator. *)
Definition get_text_strip (n : node) : pystr :=
  concat (List.filter truthy (strip <$> all_strings n)).

(** [soup.title and soup.title.string == expected] *)
Definition title_is (expected : pystr) (soup : element) : bool :=
  match find (py "title") soup with
  | Some t => bool_decide (string_of (el_node t) = Some expected)
  | None => false
  end.

(** ** The pattern of [get_grades]

    [re.search(r"NoteSesiuneaCurenta\('(.*?)',\s*'(.*?)'\)", js_call)]:
    a backtracking matcher for this one pattern. *)

(** The second group and the closing [')]: the shortest run of characters
    other than newline followed by [')]. *)
Fixpoint match_group2 (s : pystr) : option pystr :=
  if startswith (py "')") s then Some []
  else match s with
       | [] => None
       | c :: t => if c =? newline then None else (c ::.) <$> match_group2 t
       end.

(** What follows the first group: [',], whitespace, ['], the second group.
    The whitespace run is maximal, a shorter one leaves a whitespace
    character where the quote must be. *)
Definition match_after_group1 (s : pystr) : option pystr :=
  if startswith (py "',") s then
    match lstrip (drop 2 s) with
    | 39 :: r => match_group2 r
    | _ => None
    end
  else None.

(** The first group: the shortest run of characters other than newline after
    which the rest of the pattern matches. *)
Fixpoint match_group1 (s : pystr) : option (pystr * pystr) :=
  match match_after_group1 s with
  | Some g2 => Some ([], g2)
  | None =>
      match s with
      | [] => None
      | c :: t =>
          if c =? newline then None
          else (λ g, (c :: g.1, g.2)) <$> match_group1 t
      end
  end.

(** The pattern anchored at the start of [s]. *)
Definition match_here (s : pystr) : option (pystr * pystr) :=
  if startswith (py "NoteSesiuneaCurenta('") s
  then match_group1 (drop 21 s)
  else None.

(** [re.search]: the leftmost match; the result is
    [(match.group(1), match.group(2))]. *)
Fixpoint re_search_NoteSesiuneaCurenta (s : pystr) : option (pystr * pystr) :=
  match match_here s with
  | Some g => Some g
  | None =>
      match s with
      | [] => None
      | _ :: t => re_search_NoteSesiuneaCurenta t
      end
  end.

(** ** The outside world: HTTP, the parser, the log *)

(** A [session.post(url, data=payload)]; the payload is the dictionary in
    insertion order. *)
Record Request := mkRequest {
  req_url : pystr;
  req_data : list (pystr * pystr)
}.

Record Response := mkResponse {
  status_code : Z;
  reason : pystr;
  url : pystr;
  text : pystr
}.

(** The exceptions the two [except] clauses tell apart. *)
Inductive exn :=
| RequestException (msg : pystr)
    (** [requests.exceptions.RequestException] and its subclasses *)
| OtherException (msg : pystr).
    (** any other subclass of [Exception], such as [KeyError] *)

(** What the program does not decide: the answer of the portal to a request,
    given everything sent before (each request with the session that sent
    it), and the tree [BeautifulSoup(text, 'html.parser')] builds. *)
Record Env := mkEnv {
  server : list (nat * Request) → nat → Request → exn + Response;
  BeautifulSoup : pystr → node
}.

(** The state the program acts on: the sessions created so far, the requests
    sent, and the lines of the log, each a level and a message (the timestamp
    of the log file is left out). *)
Record World := mkWorld {
  next_session : nat;
  sent : list (nat * Request);
  log : list (pystr * pystr)
}.

(** A computation either raises or returns, and changes the world. *)
Definition M (A : Type) : Type := World → (exn + A) * World.

(** [return a] *)
Definition ret {A} (a : A) : M A := λ w, (inr a, w).

#[global] Instance M_ret : MRet M := @ret.
#[global] Instance M_bind : MBind M := λ A B f m w,
  match m w with
  | (inl e, w') => (inl e, w')
  | (inr a, w') => f a w'
  end.

(** [raise e] *)
Definition raise {A} (e : exn) : M A := λ w, (inl e, w).

(** [try: body  except ... as e: handler e] *)
Definition try_except {A} (body : M A) (handler : exn → M A) : M A := λ w,
  match body w with
  | (inl e, w') => handler e w'
  | (inr a, w') => (inr a, w')
  end.

(** [for x in l: acc = body acc x] *)
Fixpoint for_each {A S} (body : S → A → M S) (acc : S) (l : list A) : M S :=
  match l with
  | [] => ret acc
  | x :: l' => acc' ← body acc x; for_each body acc' l'
  end.

(** [str(e)] *)
Definition exn_str (e : exn) : pystr :=
  match e with
  | RequestException msg => msg
  | OtherException msg => msg
  end.

Definition INFO : pystr := py "INFO".
Definition DEBUG : pystr := py "DEBUG".
Definition WARNING : pystr := py "WARNING".
Definition ERROR : pystr := py "ERROR".

Definition log_message (message level : pystr) : M unit := λ w,
  (inr (), {| next_session := next_session w;
              sent := sent w;
              log := log w ++ [(level, message)] |}).

(** [requests.Session()] *)
Definition Session : M nat := λ w,
  (inr (next_session w),
   {| next_session := S (next_session w); sent := sent w; log := log w |}).

Section program.
Context (env : Env).

(** [session.post(url, data=payload)] *)
Definition post (session : nat) (url : pystr) (payload : list (pystr * pystr))
  : M Response := λ w,
  let rq := {| req_url := url; req_data := payload |} in
  (server env (sent w) session rq,
   {| next_session := next_session w;
      sent := sent w ++ [(session, rq)];
      log := log w |}).

(** [response.raise_for_status()]: an [HTTPError], which is a
    [RequestException], for the 4xx and 5xx codes. *)
Definition raise_for_status (r : Response) : M unit :=
  if ((400 <=? status_code r) && (status_code r <? 500))%Z then
    raise (RequestException
             (str_of_int (status_code r) ++ py " Client Error: " ++ reason r
                ++ py " for url: " ++ url r))
  else if ((500 <=? status_code r) && (status_code r <? 600))%Z then
    raise (RequestException
             (str_of_int (status_code r) ++ py " Server Error: " ++ reason r
                ++ py " for url: " ++ url r))
  else ret ().

(** [tag[key]], a [KeyError] when the attribute is missing. *)
Definition getitem (tag : element) (key : pystr) : M pystr :=
  match node_attrs (el_node tag) !! key with
  | Some v => ret v
  | None => raise (OtherException (py "'" ++ key ++ py "'"))
  end.

Definition parse (html : pystr) : element := soup_root (BeautifulSoup env html).

(** *** [login_websinu] *)

Definition login_url : pystr := py "https://websinu.utcluj.ro/note/default.asp".
Definition roluri_url : pystr := py "https://websinu.utcluj.ro/note/roluri.asp".
Definition landing_title : pystr := py "Note din sesiunea curenta".

(** The [payload] dictionary of the login POST. *)
Definition login_payload (username password : pystr) : list (pystr * pystr) :=
  [ (py "hidSelfSubmit", py "default.asp");
    (py "username", username);
    (py "password", password);
    (py "submit", py " Intra ") ].

(** The [second_post_payload] dictionary. *)
Definition second_post_payload (intermediate_hid_self_submit intermediate_sid : pystr)
  : list (pystr * pystr) :=
  [ (py "hidSelfSubmit", intermediate_hid_self_submit);
    (py "sid", intermediate_sid);
    (py "hidOperation", []);
    (py "hidNume_Facultate", []);
    (py "hidNume_Specializare", []) ].

(** [soup.find('form', {'name': 'frmData', 'action': 'roluri.asp'})] *)
Definition find_frmData (soup : element) : option element :=
  find_with (py "form")
    [(py "name", py "frmData"); (py "action", py "roluri.asp")] soup.

(** What [login_websinu] returns: [(session, sid, html)], each possibly
    [None]. *)
Definition login_result : Type := option nat * option pystr * option pystr.

(** The body of the [try] block. *)
Definition login_try (session : nat) (username password : pystr)
  : M login_result :=
  log_message (py "Attempting initial login POST request...") INFO;;
  response ← post session login_url (login_payload username password);
  raise_for_status response;;
  if contains (py "document.frmData.submit()") (text response)
     && contains (py "roluri.asp") (text response)
  then
    log_message (py "Detected JavaScript redirect page. Following...") INFO;;
    let soup_intermediate := parse (text response) in
    match find_frmData soup_intermediate with
    | Some form =>
        let sid_input := find_with (py "input") [(py "name", py "sid")] form in
        intermediate_sid ←
          match sid_input with
          | Some i => getitem i (py "value")
          | None => ret []
          end;
        let hid_self_submit_input :=
          find_with (py "input") [(py "name", py "hidSelfSubmit")] form in
        intermediate_hid_self_submit ←
          match hid_self_submit_input with
          | Some i => getitem i (py "value")
          | None => ret (py "roluri.asp")
          end;
        if truthy intermediate_sid then
          log_message (py "Extracted intermediate SID: " ++ intermediate_sid) INFO;;
          log_message
            (py "Sending second POST request to roluri.asp to complete login...")
            INFO;;
          final_response ←
            post session roluri_url
              (second_post_payload intermediate_hid_self_submit intermediate_sid);
          raise_for_status final_response;;
          let initial_grades_page_html := text final_response in
          let final_soup := parse initial_grades_page_html in
          if title_is landing_title final_soup then
            log_message
              (py "Successfully completed login sequence and landed on grades selection page!")
              INFO;;
            ret (Some session, Some intermediate_sid,
                  Some initial_grades_page_html)
          else
            log_message
              (py "Login sequence completed, but title 'Note din sesiunea curenta' not found on final page.")
              INFO;;
            log_message
              (py "Final Response content (first 500 chars for debugging):"
                 ++ [newline] ++ slice_to 500 initial_grades_page_html)
              INFO;;
            ret (None, None, None)
        else
          log_message
            (py "Could not extract SID from intermediate redirect page.") INFO;;
          ret (None, None, None)
    | None =>
        log_message
          (py "Could not find the intermediate form for JavaScript redirect.")
          INFO;;
        ret (None, None, None)
    end
  else if title_is landing_title (parse (text response)) then
    log_message
      (py "Successfully logged into WebSinu directly (no JS redirect detected).")
      INFO;;
    let initial_grades_page_html := text response in
    let soup_direct := parse initial_grades_page_html in
    match find_frmData soup_direct with
    | Some form_on_page =>
        let sid_input_direct :=
          find_with (py "input") [(py "name", py "sid")] form_on_page in
        session_sid ←
          match sid_input_direct with
          | Some i => v ← getitem i (py "value"); ret (Some v)
          | None => ret None
          end;
        if from_option truthy false session_sid then
          log_message
            (py "Extracted SID from directly landed page: "
               ++ default [] session_sid) INFO;;
          ret (Some session, session_sid, Some initial_grades_page_html)
        else
          log_message
            (py "Error: SID not found on directly landed roluri.asp page form.")
            INFO;;
          ret (None, None, None)
    | None =>
        log_message
          (py "Error: Form 'frmData' not found on directly landed roluri.asp page.")
          INFO;;
        ret (None, None, None)
    end
  else
    log_message
      (py "Failed to log into WebSinu. Status Code: "
         ++ str_of_int (status_code response)) INFO;;
    log_message
      (py "Response content (first 500 chars for debugging):"
         ++ [newline] ++ slice_to 500 (text response)) INFO;;
    ret (None, None, None).

(** The two [except] clauses. *)
Definition login_except (e : exn) : M login_result :=
  match e with
  | RequestException _ =>
      log_message
        (py "A network or HTTP error occurred during login: " ++ exn_str e)
        ERROR;;
      ret (None, None, None)
  | OtherException _ =>
      log_message
        (py "An unexpected error occurred during login sequence: " ++ exn_str e)
        ERROR;;
      ret (None, None, None)
  end.

Definition login_websinu (username password : pystr) : M login_result :=
  session ← Session;
  try_except (login_try session username password) login_except.

(** *** [get_grades] *)

Definition grades_post_url : pystr :=
  py "https://websinu.utcluj.ro/note/roluri.asp".

(** The [post_payload] dictionary of the grades POST. *)
Definition post_payload (sid_to_use faculty_name specialization_name : pystr)
  : list (pystr * pystr) :=
  [ (py "hidSelfSubmit", py "roluri.asp");
    (py "sid", sid_to_use);
    (py "hidOperation", py "N");
    (py "hidNume_Facultate", faculty_name);
    (py "hidNume_Specializare", specialization_name) ].

(** [lambda href: href and href.startswith("javascript: NoteSesiuneaCurenta")],
    applied to the [href] of a node ([None] when it has none). *)
Definition href_is_note_call (n : node) : bool :=
  match node_attrs n !! py "href" with
  | Some href =>
      truthy href && startswith (py "javascript: NoteSesiuneaCurenta") href
  | None => false
  end.

(** [soup.find('a', href=...)] *)
Definition find_view_notes_link (soup : element) : option element :=
  head (List.filter (λ d, href_is_note_call (el_node d)) (find_all (py "a") soup)).

(** [n.get_text()] *)
Definition get_text (n : node) : pystr := concat (all_strings n).

(** The subject cell: [get_text(strip=True)], both spellings of the
    non-breaking space replaced by a space, then [strip()]. *)
Definition subject_text (td : node) : pystr :=
  strip (replace nbsp space (replace nbsp space (get_text_strip td))).

(** ['class' in parent_table.attrs and 'table' in parent_table['class']] *)
Definition has_table_class (parent_table : node) : bool :=
  match tag_class parent_table with
  | Some cls => bool_decide (py "table" ∈ cls)
  | None => false
  end.

(** The body of [for tr in soup_grades.find_all('tr')]; indexing [tds]
    out of range is the [IndexError] of the inner [try]. *)
Definition scan_row (grades_list : list Grade) (tr : element)
  : M (list Grade) :=
  let tds := find_all_children (py "td") tr in
  if (length tds =? 6)%nat then
    match find_parent (py "table") tr with
    | Some parent_table =>
        if has_table_class parent_table then
          match tds !! 0%nat, tds !! 1%nat, tds !! 2%nat,
                tds !! 3%nat, tds !! 4%nat, tds !! 5%nat with
          | Some td0, Some td1, Some td2, Some td3, Some td4, Some td5 =>
              ret (grades_list ++
                     [ {| year := get_text_strip (el_node td0);
                          semester := get_text_strip (el_node td1);
                          subject := subject_text (el_node td2);
                          type_ := get_text_strip (el_node td3);
                          date := get_text_strip (el_node td4);
                          grade := get_text_strip (el_node td5) |} ])
          | _, _, _, _, _, _ =>
              log_message
                (py "Skipping malformed row (fewer than 6 TDs): "
                   ++ get_text (el_node tr)) WARNING;;
              ret grades_list
          end
        else ret grades_list
    | None => ret grades_list
    end
  else ret grades_list.

(** The row scan: the whole [for] loop over the parsed grades page. *)
Definition scan_rows (soup_grades : element) : M (list Grade) :=
  for_each scan_row [] (find_all (py "tr") soup_grades).

(** The body of the [try] block. *)
Definition get_grades_try (session : nat)
    (initial_sid initial_grades_page_html : pystr) : M (list Grade) :=
  log_message
    (py "Parsing HTML from successful login to find faculty/specialization link.")
    INFO;;
  let soup := parse initial_grades_page_html in
  let sid_to_use := initial_sid in
  if negb (truthy sid_to_use) then
    log_message
      (py "Error: Initial SID not provided to get_grades. Cannot proceed.")
      ERROR;;
    ret []
  else
    log_message
      (py "Using SID obtained from login for grade view: " ++ sid_to_use) INFO;;
    match find_view_notes_link soup with
    | Some view_notes_link =>
        js_call ← getitem view_notes_link (py "href");
        match re_search_NoteSesiuneaCurenta js_call with
        | Some (group1, group2) =>
            let faculty_name := strip group1 in
            let specialization_name := strip group2 in
            log_message
              (py "Found faculty: '" ++ faculty_name
                 ++ py "', specialization: '" ++ specialization_name ++ py "'")
              INFO;;
            log_message (py "Sending POST request to display grades...") INFO;;
            grades_response ←
              post session grades_post_url
                (post_payload sid_to_use faculty_name specialization_name);
            raise_for_status grades_response;;
            log_message
              ([newline] ++
               py "--- Full HTML content AFTER grades POST request (for grade extraction) ---")
              DEBUG;;
            log_message (text grades_response) DEBUG;;
            log_message
              (py "--- End Full HTML content AFTER grades POST --- " ++ [newline])
              DEBUG;;
            let soup_grades := parse (text grades_response) in
            grades_list ← scan_rows soup_grades;
            (if negb (bool_decide (grades_list ≠ [])) then
               log_message
                 (py "No grades found after parsing. The HTML structure might have changed or parsing logic needs adjustment.")
                 WARNING
             else ret ());;
            ret grades_list
        | None =>
            log_message
              (py "Could not parse 'NoteSesiuneaCurenta' arguments from link. Regex mismatch?")
              ERROR;;
            log_message (py "JavaScript call found: " ++ js_call) ERROR;;
            ret []
        end
    | None =>
        log_message
          (py "Could not find 'Vizualizare note' link (<a> tag with NoteSesiuneaCurenta call) on the provided HTML.")
          ERROR;;
        ret []
    end.

(** The two [except] clauses. *)
Definition get_grades_except (e : exn) : M (list Grade) :=
  match e with
  | RequestException _ =>
      log_message
        (py "A network or HTTP error occurred while fetching or posting grades: "
           ++ exn_str e) ERROR;;
      ret []
  | OtherException _ =>
      log_message
        (py "An unexpected error occurred during grade parsing: " ++ exn_str e)
        ERROR;;
      ret []
  end.

Definition get_grades (session : nat)
    (initial_sid initial_grades_page_html : pystr) : M (list Grade) :=
  try_except (get_grades_try session initial_sid initial_grades_page_html)
             get_grades_except.
End program.

(** ** The row scan, row by row

    The filter and the record of one row, to state what the loop of
    [get_grades] computes. *)

(** [tds = tr.find_all('td', recursive=False)] *)
Definition row_cells (tr : element) : list element :=
  find_all_children (py "td") tr.

(** The two [if]s guarding the [append]. *)
Definition row_qualifies (tr : element) : bool :=
  (length (row_cells tr) =? 6)%nat &&
  match find_parent (py "table") tr with
  | Some parent_table => has_table_class parent_table
  | None => false
  end.

(** [tds[i]] of a row. *)
Definition cell (tr : element) (i : nat) : node :=
  from_option el_node (NavigableString []) (row_cells tr !! i).

(** The dictionary appended for a row. *)
Definition row_record (tr : element) : Grade :=
  {| year := get_text_strip (cell tr 0);
     semester := get_text_strip (cell tr 1);
     subject := subject_text (cell tr 2);
     type_ := get_text_strip (cell tr 3);
     date := get_text_strip (cell tr 4);
     grade := get_text_strip (cell tr 5) |}.

(** [t] is the nearest enclosing [table] of [tr]: an ancestor called [table]
    with no [table] between it and the row. *)
Definition nearest_table (tr : element) (t : node) : Prop :=
  ∃ inner outer,
    el_parents tr = inner ++ t :: outer ∧
    is_tag_named (py "table") t = true ∧
    Forall (λ a, is_tag_named (py "table") a = false) inner.

(** The tag carries the class [c]: [c] is one of the tokens of its [class]
    attribute. *)
Definition carries_class (c : pystr) (t : node) : Prop :=
  ∃ raw, node_attrs t !! py "class" = Some raw ∧ c ∈ split_tokens [] raw.

(** Two strings that differ only in that one has U+00A0 where the other has
    U+0020. *)
Definition nbsp_or_space (a b : N) : Prop :=
  a = b ∨ (a = nbsp ∧ b = space) ∨ (a = space ∧ b = nbsp).
Definition same_up_to_nbsp (s1 s2 : pystr) : Prop := Forall2 nbsp_or_space s1 s2.

(** A string with no whitespace at either end. *)
Definition trimmed (s : pystr) : Prop :=
  from_option (λ c, isspace c = false) True (head s) ∧
  from_option (λ c, isspace c = false) True (last s).

(** ** A sample grades page

    The tree of a page with two tables: one of class [table table-striped]
    holding rows of six, five and seven cells, then one without class holding
    a row of six cells. The subject of the first row has a non-breaking
    space. *)

Definition text_cell (s : pystr) : node :=
  Tag (py "td") ∅ [NavigableString s].

Definition sample_cells (subj : pystr) : list node :=
  [ text_cell (py "1"); text_cell (py " 2 "); text_cell subj;
    text_cell (py "E"); text_cell (py "2024-01-10"); text_cell (py "9") ].

Definition sample_row (cells : list node) : node := Tag (py "tr") ∅ cells.

Definition algebra_nbsp : pystr := py "Algebra" ++ [nbsp] ++ py "liniara".
Definition algebra_space : pystr := py "Algebra liniara".

Definition sample_marked_table : node :=
  Tag (py "table") {[ py "class" := py "table table-striped" ]}
    [ sample_row (sample_cells algebra_nbsp);
      sample_row (take 5 (sample_cells (py "Fizica")));
      sample_row (sample_cells (py "Chimie") ++ [text_cell (py "x")]) ].

Definition sample_plain_table : node :=
  Tag (py "table") ∅ [ sample_row (sample_cells (py "Sport")) ].

Definition sample_grades_page : node :=
  Tag (py "[document]") ∅ [ sample_marked_table; sample_plain_table ].

(** The row of the marked table whose subject is [subj], as an element. *)
Definition sample_tr (subj : pystr) : element :=
  {| el_node := sample_row (sample_cells subj);
     el_parents := [sample_marked_table; sample_grades_page] |}.

(** The world before the program runs. *)
Definition fresh_world : World :=
  {| next_session := 0; sent := []; log := [] |}.

(** ** Sample portals

    Pages of the portal with the trees [html.parser] builds for them, and
    portals that answer with them. *)

(** The auto-submit page of the two-hop handshake. *)
Definition redirect_page : pystr :=
  py "<html><body onload='document.frmData.submit()'><form name='frmData' action='roluri.asp'><input name='sid' value='abc123'></form></body></html>".

Definition sid_input : node :=
  Tag (py "input") {[ py "name" := py "sid"; py "value" := py "abc123" ]} [].

Definition sid_form : node :=
  Tag (py "form")
    {[ py "name" := py "frmData"; py "action" := py "roluri.asp" ]}
    [ sid_input ].

Definition redirect_body : node :=
  Tag (py "body") {[ py "onload" := py "document.frmData.submit()" ]}
    [ sid_form ].

Definition redirect_html : node := Tag (py "html") ∅ [ redirect_body ].

Definition redirect_tree : node := Tag (py "[document]") ∅ [ redirect_html ].

(** The form of the auto-submit page and its sid field, as elements. *)
Definition redirect_form : element :=
  {| el_node := sid_form;
     el_parents := [redirect_body; redirect_html; redirect_tree] |}.
Definition redirect_sid_input : element :=
  {| el_node := sid_input;
     el_parents := [sid_form; redirect_body; redirect_html; redirect_tree] |}.

(** A page with a title and a body. *)
Definition titled_tree (title : pystr) (body : list node) : node :=
  Tag (py "[document]") ∅
    [ Tag (py "html") ∅
        [ Tag (py "head") ∅ [ Tag (py "title") ∅ [NavigableString title] ];
          Tag (py "body") ∅ body ] ].

(** The page the portal shows when the session is gone. *)
Definition error_page : pystr :=
  py "<html><head><title>Eroare</title></head><body>Sesiune expirata</body></html>".
Definition error_tree : node :=
  titled_tree (py "Eroare") [NavigableString (py "Sesiune expirata")].

(** The login page, shown again when the credentials are rejected. *)
Definition rejected_page : pystr :=
  py "<html><head><title>Autentificare</title></head><body>Parola gresita</body></html>".
Definition rejected_tree : node :=
  titled_tree (py "Autentificare") [NavigableString (py "Parola gresita")].

(** The landing page, with the form holding the sid and the link to the
    grades. *)
Definition landing_page : pystr :=
  py "<html><head><title>Note din sesiunea curenta</title></head><body><form name='frmData' action='roluri.asp'><input name='sid' value='abc123'></form><a href="
    ++ [34] ++ py "javascript: NoteSesiuneaCurenta('Automatica', 'Calculatoare ')"
    ++ [34] ++ py ">Vizualizare note</a></body></html>".
Definition landing_tree : node :=
  titled_tree (py "Note din sesiunea curenta")
    [ sid_form;
      Tag (py "a")
        {[ py "href" :=
             py "javascript: NoteSesiuneaCurenta('Automatica', 'Calculatoare ')" ]}
        [NavigableString (py "Vizualizare note")] ].

(** The grades page: the text of [sample_grades_page]. *)
Definition grades_page : pystr :=
  py "<table class='table table-striped'><tr><td>1</td><td> 2 </td><td>Algebra&nbsp;liniara</td><td>E</td><td>2024-01-10</td><td>9</td></tr><tr><td>1</td><td> 2 </td><td>Fizica</td><td>E</td><td>2024-01-10</td></tr><tr><td>1</td><td> 2 </td><td>Chimie</td><td>E</td><td>2024-01-10</td><td>9</td><td>x</td></tr></table><table><tr><td>1</td><td> 2 </td><td>Sport</td><td>E</td><td>2024-01-10</td><td>9</td></tr></table>".

(** The parser on the sample pages. *)
Definition sample_parser (html : pystr) : node :=
  if decide (html = grades_page) then sample_grades_page
  else if decide (html = redirect_page) then redirect_tree
  else if decide (html = error_page) then error_tree
  else if decide (html = rejected_page) then rejected_tree
  else if decide (html = landing_page) then landing_tree
  else Tag (py "[document]") ∅ [NavigableString html].

Definition ok_response (to body : pystr) : Response :=
  {| status_code := 200; reason := py "OK"; url := to; text := body |}.

(** A portal that answers the login with [first] and any request to
    [roluri.asp] with [second]. *)
Definition sample_portal (first second : pystr) : Env :=
  {| server := λ _ _ rq,
       if decide (req_url rq = login_url)
       then inr (ok_response (req_url rq) first)
       else inr (ok_response (req_url rq) second);
     BeautifulSoup := sample_parser |}.

(** Two-hop handshake ending on a page with another title. *)
Definition portal_title_mismatch : Env := sample_portal redirect_page error_page.
(** Credentials rejected: the login page again. *)
Definition portal_rejected : Env := sample_portal rejected_page rejected_page.
(** Two-hop handshake ending on the landing page. *)
Definition portal_two_hop : Env := sample_portal redirect_page landing_page.
(** The landing page at once. *)
Definition portal_direct : Env := sample_portal landing_page landing_page.
(** The landing page at once, then the grades page. *)
Definition portal_grades : Env := sample_portal landing_page grades_page.
(** A portal that is down. *)
Definition portal_down : Env :=
  {| server := λ _ _ _, inl (RequestException (py "Connection refused"));
     BeautifulSoup := sample_parser |}.

(** ** The paths through the login handshake

    The conditions, on the answers of the portal, under which
    [login_websinu] takes each path. A path starts from a session and the
    requests sent before it. *)

(** [raise_for_status] does not raise. *)
Definition http_ok (r : Response) : bool :=
  negb ((400 <=? status_code r) && (status_code r <? 600))%Z.

(** The test for the auto-submit page of the two-hop handshake. *)
Definition is_redirect_page (r : Response) : bool :=
  contains (py "document.frmData.submit()") (text r)
  && contains (py "roluri.asp") (text r).

Definition login_request (username password : pystr) : Request :=
  {| req_url := login_url; req_data := login_payload username password |}.

(** The portal answers the login POST with [r], not an HTTP error. *)
Definition login_answered (env : Env) (session : nat)
    (history : list (nat * Request)) (username password : pystr)
    (r : Response) : Prop :=
  server env history session (login_request username password) = inr r ∧
  http_ok r = true.

(** The form [frmData] of the page [html] holds a field [sid] whose value is
    the non-empty [sid]. *)
Definition form_holds_sid (env : Env) (html : pystr) (form : element)
    (sid : pystr) : Prop :=
  ∃ i : element,
    find_frmData (parse env html) = Some form ∧
    find_with (py "input") [(py "name", py "sid")] form = Some i ∧
    node_attrs (el_node i) !! py "value" = Some sid ∧
    truthy sid = true.

(** The two-hop handshake: the login POST is answered with an auto-submit
    page whose form holds [sid], and the second POST is answered with
    [final], not an HTTP error. *)
Definition two_hop_handshake (env : Env) (session : nat)
    (history : list (nat * Request)) (username password : pystr)
    (sid : pystr) (final : Response) : Prop :=
  ∃ (r : Response) (form : element) (hid_self_submit : pystr),
    login_answered env session history username password r ∧
    is_redirect_page r = true ∧
    form_holds_sid env (text r) form sid ∧
    match find_with (py "input") [(py "name", py "hidSelfSubmit")] form with
    | Some j => node_attrs (el_node j) !! py "value"
    | None => Some (py "roluri.asp")
    end = Some hid_self_submit ∧
    server env (history ++ [(session, login_request username password)])
      session
      {| req_url := roluri_url;
         req_data := second_post_payload hid_self_submit sid |} = inr final ∧
    http_ok final = true.

(** The direct path: the login POST is answered with the landing page [r],
    whose form holds [sid]. *)
Definition direct_landing (env : Env) (session : nat)
    (history : list (nat * Request)) (username password : pystr)
    (sid : pystr) (r : Response) : Prop :=
  login_answered env session history username password r ∧
  is_redirect_page r = false ∧
  title_is landing_title (parse env (text r)) = true ∧
  ∃ form, form_holds_sid env (text r) form sid.

(** The login succeeds with [sid] on the landing page [page]: by the two-hop
    handshake ending on a page with the landing title, or directly. *)
Definition login_succeeds (env : Env) (session : nat)
    (history : list (nat * Request)) (username password : pystr)
    (sid : pystr) (page : Response) : Prop :=
  (two_hop_handshake env session history username password sid page ∧
   title_is landing_title (parse env (text page)) = true) ∨
  direct_landing env session history username password sid page.

(** Title mismatch after the two-hop handshake: it ends on [final], a page
    with another title. *)
Definition two_hop_title_mismatch (env : Env) (username password : pystr)
    (w : World) (sid : pystr) (final : Response) : Prop :=
  two_hop_handshake env (next_session w) (sent w) username password sid final ∧
  title_is landing_title (parse env (text final)) = false.

(** Credentials rejected: the portal answers the login POST with [r], which
    is neither the auto-submit page nor the landing page. *)
Definition credentials_rejected (env : Env) (username password : pystr)
    (w : World) (r : Response) : Prop :=
  login_answered env (next_session w) (sent w) username password r ∧
  is_redirect_page r = false ∧
  title_is landing_title (parse env (text r)) = false.

(** ** Postconditions

    [wp m w Q]: run from the world [w], the computation [m] ends with a
    result and a world that satisfy [Q]. *)

Definition wp {A} (m : M A) (w : World) (Q : exn + A → World → Prop) : Prop :=
  Q (m w).1 (m w).2.
Arguments wp : simpl never.

(** A character that a quoted argument of the call in the grades link can
    hold and the pattern still finds the argument whole: neither the quote
    nor the newline. *)
Definition plain_char (c : N) : Prop := c ≠ 39 ∧ c ≠ newline.

(** ** The rest of the machine: snapshot files, notifications, the clock

    [main.py] also reads and writes one JSON file per user, posts
    notifications to an ntfy topic, reads the environment and sleeps between
    users. *)

(** What a snapshot file holds: the JSON text of a list of grade records,
    as [save_current_grades] writes it; text on which [json.load] raises
    [JSONDecodeError]; or a file on which [open] or [json.load] raise another
    exception. *)
Inductive FileContent :=
| FileGrades (grades : list Grade)
| FileNotJson (msg : pystr)
| FileUnreadable (msg : pystr).

(** A [requests.post(url, data=..., headers=...)] to the ntfy topic; the
    data are bytes, the headers the dictionary in insertion order. *)
Record NtfyPost := mkNtfyPost {
  ntfy_url : pystr;
  ntfy_data : list N;
  ntfy_headers : list (pystr * pystr)
}.

(** The exceptions the [except] clauses of the whole program tell apart:
    those of [exn], and [json.JSONDecodeError]. *)
Inductive pexn :=
| Exn (e : exn)
| JSONDecodeError (msg : pystr).

(** What the program does not decide, beyond the portal and the parser: the
    answer of the ntfy server to a post, given the posts before; the
    environment after [load_dotenv()]; the working directory; the text of the
    [UnicodeEncodeError] for a message that has no UTF-8 encoding; and, for
    a file and grades that cannot be written, the message of the exception
    and what the file holds afterwards ([None]: what it held before). *)
Record Host := mkHost {
  portal : Env;
  ntfy_server : list NtfyPost → NtfyPost → exn + Response;
  getenv : pystr → option pystr;
  getcwd : pystr;
  encode_error : pystr → pystr;
  write_failure : pystr → list Grade → option (pystr * option FileContent)
}.

(** The state of the whole program: the world of the portal and the log,
    the files, the posts handed to [requests.post], and the calls of
    [time.sleep]. *)
Record Machine := mkMachine {
  world : World;
  files : gmap pystr FileContent;
  ntfy_posts : list NtfyPost;
  slept : list Z
}.

Definition with_world (w : World) (s : Machine) : Machine :=
  {| world := w; files := files s; ntfy_posts := ntfy_posts s;
     slept := slept s |}.

(** A computation of the whole program. *)
Definition P (A : Type) : Type := Machine → (pexn + A) * Machine.

Definition P_ret {A} (a : A) : P A := λ s, (inr a, s).

#[global] Instance P_mret : MRet P := @P_ret.
#[global] Instance P_mbind : MBind P := λ A B f m s,
  match m s with
  | (inl e, s') => (inl e, s')
  | (inr a, s') => f a s'
  end.

Definition P_raise {A} (e : pexn) : P A := λ s, (inl e, s).

(** [try: body  except ... as e: handler e] *)
Definition P_try_except {A} (body : P A) (handler : pexn → P A) : P A := λ s,
  match body s with
  | (inl e, s') => handler e s'
  | (inr a, s') => (inr a, s')
  end.

(** [for x in l: body x] *)
Fixpoint P_for {A} (l : list A) (body : A → P unit) : P unit :=
  match l with
  | [] => P_ret ()
  | x :: l' => body x;; P_for l' body
  end.

(** A computation on the world of the portal and the log, run in the whole
    program. *)
Definition liftM {A} (m : M A) : P A := λ s,
  (match (m (world s)).1 with
   | inl e => inl (Exn e)
   | inr a => inr a
   end,
   with_world (m (world s)).2 s).

(** [str(e)] *)
Definition pexn_str (e : pexn) : pystr :=
  match e with
  | Exn e => exn_str e
  | JSONDecodeError msg => msg
  end.

(** [log_message(message, level)] in the whole program. *)
Definition P_log (message level : pystr) : P unit :=
  liftM (log_message message level).

Definition CRITICAL : pystr := py "CRITICAL".

(** *** Encoding a message *)

(** The UTF-8 bytes of one code point; a surrogate has none. *)
Definition utf8_char (c : N) : option (list N) :=
  if c <? 128 then Some [c]
  else if c <? 2048 then Some [192 + c / 64; 128 + c mod 64]
  else if (55296 <=? c) && (c <=? 57343) then None
  else if c <? 65536 then
    Some [224 + c / 4096; 128 + (c / 64) mod 64; 128 + c mod 64]
  else if c <? 1114112 then
    Some [240 + c / 262144; 128 + (c / 4096) mod 64;
          128 + (c / 64) mod 64; 128 + c mod 64]
  else None.

(** [s.encode('utf-8')]: the bytes, or [None] for the [UnicodeEncodeError]
    on a surrogate. *)
Fixpoint utf8 (s : pystr) : option (list N) :=
  match s with
  | [] => Some []
  | c :: t =>
      match utf8_char c, utf8 t with
      | Some b, Some bs => Some (b ++ bs)
      | _, _ => None
      end
  end.

(** [sep.join(l)] *)
Fixpoint join (sep : pystr) (l : list pystr) : pystr :=
  match l with
  | [] => []
  | [s] => s
  | s :: l' => s ++ sep ++ join sep l'
  end.

(** [bool(o)] for a string or [None]. *)
Definition truthy_opt (o : option pystr) : bool := from_option truthy false o.

(** [bool(l)] for a list or [None]. *)
Definition truthy_list {A} (o : option (list A)) : bool :=
  match o with
  | Some (_ :: _) => true
  | _ => false
  end.

Section machine.
Context (host : Host).

(** *** [send_ntfy_notification] *)

(** [message.encode('utf-8')] *)
Definition encode (message : pystr) : P (list N) :=
  match utf8 message with
  | Some data => P_ret data
  | None => P_raise (Exn (OtherException (encode_error host message)))
  end.

(** [requests.post(url, data=data, headers=headers)] *)
Definition requests_post (to : pystr) (data : list N)
    (headers : list (pystr * pystr)) : P Response := λ s,
  let rq := {| ntfy_url := to; ntfy_data := data; ntfy_headers := headers |} in
  (match ntfy_server host (ntfy_posts s) rq with
   | inl e => inl (Exn e)
   | inr r => inr r
   end,
   {| world := world s; files := files s;
      ntfy_posts := ntfy_posts s ++ [rq]; slept := slept s |}).

(** The [headers] dictionary: the title, and the tags when there are some. *)
Definition ntfy_headers_of (title : pystr) (tags : option (list pystr))
  : list (pystr * pystr) :=
  let headers := [(py "Title", title)] in
  if truthy_list tags
  then headers ++ [(py "Tags", join (py ",") (default [] tags))]
  else headers.

(** The two [except] clauses. *)
Definition send_ntfy_except (e : pexn) : P unit :=
  match e with
  | Exn (RequestException _) =>
      P_log (py "Failed to send Ntfy notification: " ++ pexn_str e) ERROR
  | _ =>
      P_log (py "An unexpected error occurred while sending Ntfy notification: "
               ++ pexn_str e) ERROR
  end.

Definition send_ntfy_notification (global_ntfy_topic_url : option pystr)
    (message title : pystr) (tags : option (list pystr)) : P unit :=
  if negb (truthy_opt global_ntfy_topic_url) then
    P_log (py "Ntfy topic URL is not configured. Cannot send notification.")
      WARNING
  else
    P_try_except
      (let headers := ntfy_headers_of title tags in
       data ← encode message;
       response ←
         requests_post (default [] global_ntfy_topic_url) data headers;
       liftM (raise_for_status response);;
       P_log (py "Ntfy notification sent successfully: '" ++ message ++ py "'")
         INFO)
      send_ntfy_except.

(** The default [title] of [send_ntfy_notification]. *)
Definition default_title : pystr := py "WebSinu Grades Update".

(** *** [load_previous_grades] and [save_current_grades] *)

(** [f"previous_grades_{user_identifier}.json"] *)
Definition user_grades_file (user_identifier : pystr) : pystr :=
  py "previous_grades_" ++ user_identifier ++ py ".json".

(** [os.path.exists(file)] *)
Definition path_exists (file : pystr) : P bool := λ s,
  (inr (bool_decide (is_Some (files s !! file))), s).

(** [with open(file, 'r', encoding='utf-8') as f: json.load(f)] *)
Definition json_load (file : pystr) : P (list Grade) := λ s,
  (match files s !! file with
   | Some (FileGrades grades) => inr grades
   | Some (FileNotJson msg) => inl (JSONDecodeError msg)
   | Some (FileUnreadable msg) => inl (Exn (OtherException msg))
   | None => inl (Exn (OtherException (py "No such file or directory")))
   end, s).

(** [with open(file, 'w', encoding='utf-8') as f: json.dump(grades, f, ...)] *)
Definition json_dump (file : pystr) (grades : list Grade) : P unit := λ s,
  match write_failure host file grades with
  | None =>
      (inr (),
       {| world := world s; files := <[file := FileGrades grades]> (files s);
          ntfy_posts := ntfy_posts s; slept := slept s |})
  | Some (msg, after) =>
      (inl (Exn (OtherException msg)),
       {| world := world s;
          files := match after with
                   | Some c => <[file := c]> (files s)
                   | None => files s
                   end;
          ntfy_posts := ntfy_posts s; slept := slept s |})
  end.

(** [str(len(l))] *)
Definition str_of_len {A} (l : list A) : pystr :=
  str_of_int (Z.of_nat (length l)).

(** The two [except] clauses of [load_previous_grades]. *)
Definition load_except (user_identifier user_grades_file : pystr) (e : pexn)
  : P (list Grade) :=
  match e with
  | JSONDecodeError _ =>
      P_log (py "Error decoding JSON from " ++ user_grades_file ++ py ": "
               ++ pexn_str e ++ py ". Starting with empty grades for '"
               ++ user_identifier ++ py "'.") ERROR;;
      P_ret []
  | Exn _ =>
      P_log (py "An error occurred loading previous grades for '"
               ++ user_identifier ++ py "': " ++ pexn_str e
               ++ py ". Starting with empty grades.") ERROR;;
      P_ret []
  end.

Definition load_previous_grades (user_identifier : pystr) : P (list Grade) :=
  let user_grades_file := user_grades_file user_identifier in
  found ← path_exists user_grades_file;
  if found : bool then
    P_try_except
      (grades ← json_load user_grades_file;
       P_log (py "Loaded " ++ str_of_len grades ++ py " previous grades for user '"
                ++ user_identifier ++ py "' from " ++ user_grades_file) INFO;;
       P_ret grades)
      (load_except user_identifier user_grades_file)
  else
    P_log (py "No previous grades file found for user '" ++ user_identifier
             ++ py "' at " ++ user_grades_file
             ++ py ". Starting with empty grades.") INFO;;
    P_ret [].

Definition save_current_grades (user_identifier : pystr) (grades : list Grade)
  : P unit :=
  let user_grades_file := user_grades_file user_identifier in
  P_try_except
    (json_dump user_grades_file grades;;
     P_log (py "Saved " ++ str_of_len grades ++ py " current grades for user '"
              ++ user_identifier ++ py "' to " ++ user_grades_file) INFO)
    (λ e,
       P_log (py "Error saving current grades for user '" ++ user_identifier
                ++ py "' to " ++ user_grades_file ++ py ": " ++ pexn_str e)
         ERROR).
End machine.

(** *** The main program *)

Definition USER_IDENTIFIERS : list pystr := [py "STUDENT_A"; py "STUDENT_B"].
Definition DELAY_BETWEEN_USERS_SECONDS : Z := 5.

(** [time.sleep(seconds)] *)
Definition sleep (seconds : Z) : P unit := λ s,
  (inr (),
   {| world := world s; files := files s; ntfy_posts := ntfy_posts s;
      slept := slept s ++ [seconds] |}).

(** ['Yes' if o else 'No'] *)
Definition yes_no (o : option pystr) : pystr :=
  if truthy_opt o then py "Yes" else py "No".

(** The message of a new grade. *)
Definition new_grade_message (user_identifier : pystr) (entry : Grade) : pystr :=
  py "New grade for " ++ user_identifier ++ py ": " ++ subject entry
    ++ py " is " ++ grade entry ++ py " (on " ++ date entry ++ py ")".

(** The message of a changed grade. *)
Definition changed_grade_message (user_identifier : pystr) (entry : ChangeEntry)
  : pystr :=
  py "Grade for " ++ user_identifier ++ py ": " ++ ch_subject entry
    ++ py " changed from " ++ old_grade entry ++ py " to " ++ new_grade entry
    ++ py " (on " ++ ch_date entry ++ py ")".

Section main_program.
Context (host : Host).

(** The branch [if previous_grades:] of the loop body: compare and notify. *)
Definition notify_differences (global_ntfy_topic_url : option pystr)
    (user_identifier : pystr) (previous_grades current_grades : list Grade)
  : P unit :=
  let '(new_entries, changed_entries) :=
    compare_grades previous_grades current_grades in
  (if bool_decide (new_entries ≠ []) then
     P_for new_entries (λ entry,
       let msg := new_grade_message user_identifier entry in
       send_ntfy_notification host global_ntfy_topic_url msg
         (py "New WebSinu Grade for " ++ user_identifier ++ py "!")
         (Some [py "new"; py "sparkles"]);;
       P_log (py "Notified: " ++ msg) INFO)
   else P_ret ());;
  (if bool_decide (changed_entries ≠ []) then
     P_for changed_entries (λ entry,
       let msg := changed_grade_message user_identifier entry in
       send_ntfy_notification host global_ntfy_topic_url msg
         (py "WebSinu Grade Changed for " ++ user_identifier ++ py "!")
         (Some [py "changed"; py "warning"]);;
       P_log (py "Notified: " ++ msg) INFO)
   else P_ret ());;
  if negb (bool_decide (new_entries ≠ []))
     && negb (bool_decide (changed_entries ≠ [])) then
    P_log (py "No new or changed grades found for user '" ++ user_identifier
             ++ py "'.") INFO;;
    send_ntfy_notification host global_ntfy_topic_url
      (py "No new grades found for " ++ user_identifier ++ py ". All good.")
      default_title (Some [py "check"])
  else P_ret ().

(** The [else] branch of the credentials test: what is done for a user
    whose credentials are there, up to the pause. *)
Definition check_user (global_ntfy_topic_url : option pystr)
    (user_identifier websinu_username websinu_password : pystr) : P unit :=
  send_ntfy_notification host global_ntfy_topic_url
    (py "Agent started checking for user '" ++ user_identifier ++ py "'.")
    (py "Agent Status") (Some [py "robot"; py "sync"]);;
  previous_grades ← load_previous_grades user_identifier;
  '(websinu_session, login_sid, initial_grades_html_content) ←
    liftM (login_websinu (portal host) websinu_username websinu_password);
  match websinu_session, login_sid, initial_grades_html_content with
  | Some session, Some (c :: sid), Some (d :: html) =>
      P_log ([newline] ++ py "Attempting to retrieve grades for user '"
               ++ user_identifier ++ py "'...") INFO;;
      current_grades ←
        liftM (get_grades (portal host) session (c :: sid) (d :: html));
      if bool_decide (current_grades ≠ []) then
        P_log (py "Found " ++ str_of_len current_grades
                 ++ py " current grades for user '" ++ user_identifier
                 ++ py "'.") INFO;;
        (if bool_decide (previous_grades ≠ []) then
           notify_differences global_ntfy_topic_url user_identifier
             previous_grades current_grades
         else
           P_log (py "First run or no previous grades found for user '"
                    ++ user_identifier
                    ++ py "'. Not comparing, just saving current grades.") INFO;;
           send_ntfy_notification host global_ntfy_topic_url
             (py "First grade check completed for " ++ user_identifier
                ++ py ". Found " ++ str_of_len current_grades
                ++ py " grades. Will notify on changes.")
             default_title (Some [py "info"]));;
        save_current_grades host user_identifier current_grades
      else
        P_log (py "Could not retrieve current grades for user '"
                 ++ user_identifier ++ py "'.") ERROR;;
        send_ntfy_notification host global_ntfy_topic_url
          (py "Failed to retrieve grades for " ++ user_identifier
             ++ py ". Check logs.")
          default_title (Some [py "warning"; py "exclamation"])
  | _, _, _ =>
      P_log (py "Login failed for user '" ++ user_identifier
               ++ py "'. Cannot proceed to get grades.") ERROR;;
      send_ntfy_notification host global_ntfy_topic_url
        (py "WebSinu login failed for " ++ user_identifier
           ++ py ". Check credentials or site changes.")
        default_title (Some [py "error"; py "x"])
  end.

(** The pause at the end of the loop body, for every user that is not the
    last of the list. *)
Definition pause_between_users (users : list pystr) (user_identifier : pystr)
  : P unit :=
  if bool_decide (last users ≠ Some user_identifier) then
    P_log (py "Pausing for " ++ str_of_int DELAY_BETWEEN_USERS_SECONDS
             ++ py " seconds before next user...") INFO;;
    sleep DELAY_BETWEEN_USERS_SECONDS
  else P_ret ().

(** The body of [for user_identifier in USER_IDENTIFIERS]; the [continue]
    of a user without credentials skips the pause too. *)
Definition process_user (global_ntfy_topic_url : option pystr)
    (users : list pystr) (user_identifier : pystr) : P unit :=
  P_log ([newline] ++ py "--- Processing grades for user: '" ++ user_identifier
           ++ py "' ---") INFO;;
  let websinu_username := getenv host (user_identifier ++ py "_WEBSINU_USERNAME") in
  let websinu_password := getenv host (user_identifier ++ py "_WEBSINU_PASSWORD") in
  P_log (py "'" ++ user_identifier ++ py "_WEBSINU_USERNAME' loaded: "
           ++ yes_no websinu_username) DEBUG;;
  P_log (py "'" ++ user_identifier ++ py "_WEBSINU_PASSWORD' loaded: "
           ++ yes_no websinu_password) DEBUG;;
  if negb (truthy_opt websinu_username) || negb (truthy_opt websinu_password)
  then
    P_log (py "Error: WebSinu username or password not found in .env for user '"
             ++ user_identifier ++ py "'. Skipping this user.") ERROR;;
    send_ntfy_notification host global_ntfy_topic_url
      (py "WebSinu credentials missing for user '" ++ user_identifier
         ++ py "'. Skipping.")
      (py "WebSinu Agent Error") (Some [py "error"; py "x"])
  else
    check_user global_ntfy_topic_url user_identifier
      (default [] websinu_username) (default [] websinu_password);;
    pause_between_users users user_identifier.

(** The script under [if __name__ == "__main__":]; the result is the exit
    status, 1 for [exit(1)] and 0 at the end of the script. *)
Definition main : P Z :=
  let current_dir := getcwd host in
  P_log (py "Current working directory: " ++ current_dir) DEBUG;;
  let global_ntfy_topic_url := getenv host (py "NTFY_TOPIC_URL") in
  if negb (truthy_opt global_ntfy_topic_url) then
    P_log (py "CRITICAL ERROR: NTFY_TOPIC_URL not found in .env. Agent cannot send notifications. Please add NTFY_TOPIC_URL='your_ntfy_topic_url' to your .env file.")
      CRITICAL;;
    P_ret 1%Z
  else
    P_log (py "NTFY_TOPIC_URL loaded: " ++ yes_no global_ntfy_topic_url) DEBUG;;
    send_ntfy_notification host global_ntfy_topic_url
      (py "WebSinu Grades agent started!") (py "Agent Status")
      (Some [py "robot"]);;
    P_for USER_IDENTIFIERS
      (process_user global_ntfy_topic_url USER_IDENTIFIERS);;
    P_log ([newline] ++ py "--- All user grade checks completed ---") INFO;;
    send_ntfy_notification host global_ntfy_topic_url
      (py "All WebSinu grade checks completed!") (py "Agent Batch Complete")
      (Some [py "checkmark"; py "bell"]);;
    P_ret 0%Z.
End main_program.

(** ** Postconditions of the whole program *)

(** [wpP m s Q]: run from the machine [s], the computation [m] ends with a
    result and a machine that satisfy [Q]. *)
Definition wpP {A} (m : P A) (s : Machine) (Q : pexn + A → Machine → Prop)
  : Prop :=
  Q (m s).1 (m s).2.
Arguments wpP : simpl never.

(** The world after one more line of log. *)
Definition add_log (w : World) (line : pystr * pystr) : World :=
  {| next_session := next_session w; sent := sent w;
     log := log w ++ [line] |}.

(** The post [send_ntfy_notification] hands to [requests.post]: none
    without a topic URL or for a message that cannot be encoded. *)
Definition ntfy_request (global_ntfy_topic_url : option pystr)
    (message title : pystr) (tags : option (list pystr)) : option NtfyPost :=
  if truthy_opt global_ntfy_topic_url then
    (λ data, {| ntfy_url := default [] global_ntfy_topic_url;
                ntfy_data := data;
                ntfy_headers := ntfy_headers_of title tags |})
      <$> utf8 message
  else None.

(** What [load_previous_grades] finds for a user in the files. *)
Definition stored_grades (fs : gmap pystr FileContent) (user_identifier : pystr)
  : list Grade :=
  match fs !! user_grades_file user_identifier with
  | Some (FileGrades grades) => grades
  | _ => []
  end.

(** The files after [save_current_grades] for a user. *)
Definition files_after_save (host : Host) (user_identifier : pystr)
    (grades : list Grade) (fs : gmap pystr FileContent)
  : gmap pystr FileContent :=
  match write_failure host (user_grades_file user_identifier) grades with
  | None => <[user_grades_file user_identifier := FileGrades grades]> fs
  | Some (_, Some c) => <[user_grades_file user_identifier := c]> fs
  | Some (_, None) => fs
  end.

(** A sample host: the ntfy server accepts every post, the environment holds
    the topic URL and the credentials of [STUDENT_A] only, and every file
    can be written. *)
Definition sample_environ (name : pystr) : option pystr :=
  if decide (name = py "NTFY_TOPIC_URL") then Some (py "https://ntfy.sh/grades")
  else if decide (name = py "STUDENT_A_WEBSINU_USERNAME") then Some (py "student")
  else if decide (name = py "STUDENT_A_WEBSINU_PASSWORD") then Some (py "secret")
  else None.

Definition sample_host (env : Env) : Host :=
  {| portal := env;
     ntfy_server := λ _ rq, inr (ok_response (ntfy_url rq) []);
     getenv := sample_environ;
     getcwd := py "/home/agent";
     encode_error := λ _, py "'utf-8' codec can't encode character";
     write_failure := λ _ _, None |}.

(** The machine before the program runs. *)
Definition fresh_machine : Machine :=
  {| world := fresh_world; files := ∅; ntfy_posts := []; slept := [] |}.

(** From [s] to [s'] only the log has grown and the posts [posts] were
    handed to [requests.post]: no file, no session, no request to the portal
    and no pause. *)
Definition notified (s : Machine) (posts : list NtfyPost) (s' : Machine)
  : Prop :=
  files s' = files s ∧ slept s' = slept s ∧
  next_session (world s') = next_session (world s) ∧
  sent (world s') = sent (world s) ∧
  ntfy_posts s' = ntfy_posts s ++ posts.

(** The posts of the comparing branch: one per new grade, then one per
    changed grade, or the single post that nothing is new. *)
Definition difference_posts (global_ntfy_topic_url : option pystr)
    (user_identifier : pystr) (previous_grades current_grades : list Grade)
  : list NtfyPost :=
  let '(new_entries, changed_entries) :=
    compare_grades previous_grades current_grades in
  omap (λ entry,
          ntfy_request global_ntfy_topic_url
            (new_grade_message user_identifier entry)
            (py "New WebSinu Grade for " ++ user_identifier ++ py "!")
            (Some [py "new"; py "sparkles"])) new_entries
  ++ omap (λ entry,
             ntfy_request global_ntfy_topic_url
               (changed_grade_message user_identifier entry)
               (py "WebSinu Grade Changed for " ++ user_identifier ++ py "!")
               (Some [py "changed"; py "warning"])) changed_entries
  ++ match new_entries, changed_entries with
     | [], [] =>
         option_list
           (ntfy_request global_ntfy_topic_url
              (py "No new grades found for " ++ user_identifier
                 ++ py ". All good.")
              default_title (Some [py "check"]))
     | _, _ => []
     end.

(** The posts of the loop body other than those of the differences. *)
Definition started_post (url : option pystr) (user_identifier : pystr)
  : option NtfyPost :=
  ntfy_request url
    (py "Agent started checking for user '" ++ user_identifier ++ py "'.")
    (py "Agent Status") (Some [py "robot"; py "sync"]).

Definition login_failed_post (url : option pystr) (user_identifier : pystr)
  : option NtfyPost :=
  ntfy_request url
    (py "WebSinu login failed for " ++ user_identifier
       ++ py ". Check credentials or site changes.")
    default_title (Some [py "error"; py "x"]).

Definition no_grades_post (url : option pystr) (user_identifier : pystr)
  : option NtfyPost :=
  ntfy_request url
    (py "Failed to retrieve grades for " ++ user_identifier ++ py ". Check logs.")
    default_title (Some [py "warning"; py "exclamation"]).

Definition first_run_post (url : option pystr) (user_identifier : pystr)
    (current_grades : list Grade) : option NtfyPost :=
  ntfy_request url
    (py "First grade check completed for " ++ user_identifier
       ++ py ". Found " ++ str_of_len current_grades
       ++ py " grades. Will notify on changes.")
    default_title (Some [py "info"]).

Definition credentials_missing_post (url : option pystr)
    (user_identifier : pystr) : option NtfyPost :=
  ntfy_request url
    (py "WebSinu credentials missing for user '" ++ user_identifier
       ++ py "'. Skipping.")
    (py "WebSinu Agent Error") (Some [py "error"; py "x"]).

(** How the check of one user ends: the login fails, no grade is retrieved,
    or the grades [current_grades] are retrieved. *)
Inductive check_result :=
| LoginFailed
| NoGrades
| Retrieved (current_grades : list Grade).

(** The posts that follow the start of a check, by its result and the
    grades stored for the user before. *)
Definition result_posts (url : option pystr) (user_identifier : pystr)
    (previous_grades : list Grade) (res : check_result) : list NtfyPost :=
  match res with
  | LoginFailed => option_list (login_failed_post url user_identifier)
  | NoGrades => option_list (no_grades_post url user_identifier)
  | Retrieved current_grades =>
      match previous_grades with
      | [] => option_list (first_run_post url user_identifier current_grades)
      | _ => difference_posts url user_identifier previous_grades current_grades
      end
  end.

(** The files after a check, by its result. *)
Definition result_files (host : Host) (user_identifier : pystr)
    (fs : gmap pystr FileContent) (res : check_result)
  : gmap pystr FileContent :=
  match res with
  | Retrieved current_grades =>
      files_after_save host user_identifier current_grades fs
  | _ => fs
  end.

(** The credentials of a user are both in the environment and not empty. *)
Definition has_credentials (host : Host) (user_identifier : pystr) : bool :=
  truthy_opt (getenv host (user_identifier ++ py "_WEBSINU_USERNAME"))
  && truthy_opt (getenv host (user_identifier ++ py "_WEBSINU_PASSWORD")).

(** The pauses after the check of a user. *)
Definition pauses_after (users : list pystr) (user_identifier : pystr)
  : list Z :=
  if bool_decide (last users ≠ Some user_identifier)
  then [DELAY_BETWEEN_USERS_SECONDS] else [].

(** What the loop body does for one user, from [s] to [s']: without
    credentials one post and nothing else; with them one session, at most
    three requests through it, the posts and the files of the result of the
    check, and the pause. *)
Definition user_processed (host : Host) (url : option pystr)
    (users : list pystr) (user_identifier : pystr) (s s' : Machine) : Prop :=
  if has_credentials host user_identifier then
    next_session (world s') = S (next_session (world s)) ∧
    (∃ reqs, sent (world s') =
               sent (world s) ++ ((next_session (world s),.) <$> reqs) ∧
             (length reqs ≤ 3)%nat) ∧
    slept s' = slept s ++ pauses_after users user_identifier ∧
    ∃ res,
      (∀ current_grades, res = Retrieved current_grades → current_grades ≠ []) ∧
      files s' = result_files host user_identifier (files s) res ∧
      ntfy_posts s' =
        ntfy_posts s ++ option_list (started_post url user_identifier)
          ++ result_posts url user_identifier
               (stored_grades (files s) user_identifier) res
  else
    notified s (option_list (credentials_missing_post url user_identifier)) s'.

(** The first and the last post of a run. *)
Definition agent_started_post (url : option pystr) : option NtfyPost :=
  ntfy_request url (py "WebSinu Grades agent started!") (py "Agent Status")
    (Some [py "robot"]).

Definition batch_complete_post (url : option pystr) : option NtfyPost :=
  ntfy_request url (py "All WebSinu grade checks completed!")
    (py "Agent Batch Complete") (Some [py "checkmark"; py "bell"]).

(** What a run of the script does, from [s] to [s'], with its exit status:
    without the topic URL nothing but the log; with it the post of the
    start, the two users in turn, and the post of the end. *)
Definition script_run (host : Host) (s : Machine) (status : Z) (s' : Machine)
  : Prop :=
  let url := getenv host (py "NTFY_TOPIC_URL") in
  if truthy_opt url then
    status = 0%Z ∧
    ∃ s0 s1 s2,
      notified s (option_list (agent_started_post url)) s0 ∧
      user_processed host url USER_IDENTIFIERS (py "STUDENT_A") s0 s1 ∧
      user_processed host url USER_IDENTIFIERS (py "STUDENT_B") s1 s2 ∧
      notified s2 (option_list (batch_complete_post url)) s'
  else status = 1%Z ∧ notified s [] s'.

(** A machine where [STUDENT_A] has a snapshot. *)
Definition machine_with_snapshot : Machine :=
  {| world := fresh_world;
     files := {[ user_grades_file (py "STUDENT_A") := FileGrades [algebra_7] ]};
     ntfy_posts := []; slept := [] |}.

(** A host whose environment is empty. *)
Definition bare_host (env : Env) : Host :=
  {| portal := env;
     ntfy_server := λ _ rq, inr (ok_response (ntfy_url rq) []);
     getenv := λ _, None;
     getcwd := py "/home/agent";
     encode_error := λ _, py "'utf-8' codec can't encode character";
     write_failure := λ _ _, None |}.

(** An auto-submit page whose [sid] field has no [value] attribute, and a
    portal that answers with it. *)
Definition redirect_page_no_value : pystr :=
  py "<html><body onload='document.frmData.submit()'><form name='frmData' action='roluri.asp'><input name='sid'></form></body></html>".

Definition sid_input_no_value : node :=
  Tag (py "input") {[ py "name" := py "sid" ]} [].

Definition sid_form_no_value : node :=
  Tag (py "form")
    {[ py "name" := py "frmData"; py "action" := py "roluri.asp" ]}
    [ sid_input_no_value ].

Definition redirect_body_no_value : node :=
  Tag (py "body") {[ py "onload" := py "document.frmData.submit()" ]}
    [ sid_form_no_value ].

Definition redirect_html_no_value : node :=
  Tag (py "html") ∅ [ redirect_body_no_value ].

Definition redirect_tree_no_value : node :=
  Tag (py "[document]") ∅ [ redirect_html_no_value ].

Definition redirect_form_no_value : element :=
  {| el_node := sid_form_no_value;
     el_parents := [redirect_body_no_value; redirect_html_no_value;
                    redirect_tree_no_value] |}.

Definition redirect_sid_input_no_value : element :=
  {| el_node := sid_input_no_value;
     el_parents := [sid_form_no_value; redirect_body_no_value;
                    redirect_html_no_value; redirect_tree_no_value] |}.

Definition portal_sid_without_value : Env :=
  {| server := λ _ _ rq, inr (ok_response (req_url rq) redirect_page_no_value);
     BeautifulSoup := λ html,
       if decide (html = redirect_page_no_value) then redirect_tree_no_value
       else sample_parser html |}.

(** * Properties *)

(** ** Lists *)

Section list_facts.
Context {A : Type} (P : A → Prop) `{!∀ x, Decision (P x)}.

Lemma filter_none (l : list A) : (∀ x, x ∈ l → ¬ P x) → filter P l = [].
Proof.
  induction l as [|a l IH]; intros Hall; [done|].
  rewrite filter_cons_False by (apply Hall; left).
  apply IH. intros x Hx. apply Hall. by right.
Qed.

Lemma filter_all (l : list A) : (∀ x, x ∈ l → P x) → filter P l = l.
Proof.
  induction l as [|a l IH]; intros Hall; [done|].
  rewrite filter_cons_True by (apply Hall; left).
  f_equal. apply IH. intros x Hx. apply Hall. by right.
Qed.
End list_facts.

(** ** The diff engine *)

Section compare_grades_facts.
Implicit Types (old cur : list Grade) (g r : Grade).
Implicit Types (m : gmap (pystr * pystr * pystr) pystr).

(** The map built by the first loop, one old grade at a time. *)
Lemma old_grades_map_snoc old g :
  old_grades_map (old ++ [g]) = <[key_of g := grade g]> (old_grades_map old).
Proof. unfold old_grades_map. by rewrite foldl_app. Qed.

Lemma old_grades_map_lookup old k :
  old_grades_map old !! k = grade <$> last (filter (λ r, key_of r = k) old).
Proof.
  induction old as [|g old IH] using rev_ind; [done|].
  rewrite old_grades_map_snoc, filter_app, lookup_insert.
  rewrite filter_cons, filter_nil.
  destruct (decide (key_of g = k)).
  - by rewrite last_snoc.
  - by rewrite app_nil_r.
Qed.

(** The second loop only ever appends to its two accumulators. *)
Lemma compare_loop_acc m cur acc :
  foldl (compare_step m) acc cur =
    (acc.1 ++ (foldl (compare_step m) ([], []) cur).1,
     acc.2 ++ (foldl (compare_step m) ([], []) cur).2).
Proof.
  revert acc. induction cur as [|g cur IH]; intros [n c]; simpl.
  - by rewrite !app_nil_r.
  - rewrite IH. rewrite (IH (compare_step m ([], []) g)).
    unfold compare_step. destruct (m !! key_of g) as [stored|]; simpl.
    + case_decide; simpl; by rewrite <- ?app_assoc.
    + by rewrite <- app_assoc.
Qed.

Lemma compare_grades_cons old g cur :
  compare_grades old (g :: cur) =
    ((compare_step (old_grades_map old) ([], []) g).1
       ++ (compare_grades old cur).1,
     (compare_step (old_grades_map old) ([], []) g).2
       ++ (compare_grades old cur).2).
Proof. unfold compare_grades. simpl. by rewrite compare_loop_acc. Qed.

Lemma compare_grades_app old cur1 cur2 :
  compare_grades old (cur1 ++ cur2) =
    ((compare_grades old cur1).1 ++ (compare_grades old cur2).1,
     (compare_grades old cur1).2 ++ (compare_grades old cur2).2).
Proof.
  unfold compare_grades. rewrite foldl_app. by rewrite compare_loop_acc.
Qed.
End compare_grades_facts.

Section compare_grades_claims.
Implicit Types (old cur p : list Grade) (g r : Grade).

(** The new entries are the current records whose key is not in the map,
    in order. *)
Lemma compare_grades_new old cur :
  (compare_grades old cur).1 =
    filter (λ g, old_grades_map old !! key_of g = None) cur.
Proof.
  induction cur as [|g cur IH]; [done|].
  rewrite compare_grades_cons, filter_cons. simpl. rewrite IH.
  unfold compare_step.
  destruct (old_grades_map old !! key_of g) as [stored|];
    repeat case_decide; by simplify_eq.
Qed.

(** The changed entries come from the current records whose key is in the
    map with another grade, in order. *)
Lemma compare_grades_changed old cur :
  (compare_grades old cur).2 =
    (λ g, change_entry (default [] (old_grades_map old !! key_of g)) g) <$>
      filter (λ g, is_Some (old_grades_map old !! key_of g) ∧
                   old_grades_map old !! key_of g ≠ Some (grade g)) cur.
Proof.
  induction cur as [|g cur IH]; [done|].
  rewrite compare_grades_cons, filter_cons. simpl. rewrite IH.
  unfold compare_step.
  destruct (old_grades_map old !! key_of g) as [stored|] eqn:E; simpl.
  - destruct (decide (stored ≠ grade g)) as [Hne|Heq]; simpl.
    + rewrite decide_True by (split; [by eexists|congruence]).
      by rewrite fmap_cons, E.
    + rewrite decide_False; [done|]. intros [_ ?]. apply Heq. congruence.
  - done.
Qed.

(** A record of [p] finds a grade under its key in the map built from [p]. *)
Lemma old_grades_map_elem_of p r :
  r ∈ p →
  ∃ r', r' ∈ p ∧ key_of r' = key_of r ∧
        old_grades_map p !! key_of r = Some (grade r').
Proof.
  intros Hr. rewrite old_grades_map_lookup.
  destruct (last (filter (λ r0, key_of r0 = key_of r) p)) as [r'|] eqn:E.
  - apply last_Some_elem_of, list_elem_of_filter in E as [? ?]. by exists r'.
  - apply last_None in E.
    assert (r ∈ filter (λ r0, key_of r0 = key_of r) p) as Hin
      by by apply list_elem_of_filter.
    rewrite E in Hin. by apply elem_of_nil in Hin.
Qed.
End compare_grades_claims.

(** C1 (as stated, refuted): with two old records under one key, the map
    does not keep the grade of the first one. *)
Lemma old_grades_map_not_first_wins :
  ¬ (∀ (old : list Grade) k r,
       head (filter (λ r', key_of r' = k) old) = Some r →
       old_grades_map old !! k = Some (grade r)).
Proof.
  intros H.
  specialize (H [algebra_7; algebra_9] (key_of algebra_7) algebra_7 eq_refl).
  rewrite old_grades_map_lookup in H. vm_compute in H. discriminate H.
Qed.

(** C1 (amended): the previous-grade lookup built by [compare_grades] holds,
    for every key, the grade of the last old record with that key (none when
    no old record has it); a current record is therefore compared against
    the last occurrence's grade. *)
Theorem old_grades_map_last_wins (old : list Grade) :
  (∀ k, old_grades_map old !! k =
        grade <$> last (filter (λ r, key_of r = k) old)) ∧
  (∀ g, compare_grades old [g] =
        match last (filter (λ r, key_of r = key_of g) old) with
        | None => ([g], [])
        | Some r => if decide (grade r = grade g) then ([], [])
                    else ([], [change_entry (grade r) g])
        end).
Proof.
  split; [apply old_grades_map_lookup|].
  intros g. unfold compare_grades. simpl. unfold compare_step.
  rewrite old_grades_map_lookup.
  destruct (last _) as [r|]; simpl; [|done].
  by destruct (decide (grade r = grade g)); case_decide.
Qed.

(** C2 (as stated, refuted): a snapshot holding one key twice with two
    grades differs from itself. *)
Lemma compare_grades_self_duplicates :
  compare_grades [algebra_7; algebra_9] [algebra_7; algebra_9] =
    ([], [change_entry (py "9") algebra_7]) ∧
  compare_grades [algebra_7; algebra_9] [algebra_7; algebra_9] ≠ ([], []).
Proof.
  assert (compare_grades [algebra_7; algebra_9] [algebra_7; algebra_9] =
            ([], [change_entry (py "9") algebra_7])) as E.
  { rewrite (surjective_pairing (compare_grades _ _)).
    rewrite compare_grades_new, compare_grades_changed.
    rewrite !filter_cons, !filter_nil. rewrite !old_grades_map_lookup.
    by vm_compute. }
  split; [done|]. rewrite E. discriminate.
Qed.

(** C2 (amended): a snapshot in which records sharing an identity key carry
    the same grade has an empty diff against itself. *)
Theorem compare_grades_self (p : list Grade) :
  (∀ r1 r2, r1 ∈ p → r2 ∈ p → key_of r1 = key_of r2 → grade r1 = grade r2) →
  compare_grades p p = ([], []).
Proof.
  intros Hp. rewrite (surjective_pairing (compare_grades _ _)).
  rewrite compare_grades_new, compare_grades_changed.
  assert (∀ r, r ∈ p → old_grades_map p !! key_of r = Some (grade r)) as Hl.
  { intros r Hr. destruct (old_grades_map_elem_of p r Hr) as (r' & ? & ? & ->).
    f_equal. by apply Hp. }
  rewrite !filter_none; [done| |].
  - intros r Hr [_ Hne]. by apply Hne, Hl.
  - intros r Hr. by rewrite Hl.
Qed.

Lemma compare_grades_self_witness :
  (∀ r1 r2, r1 ∈ [algebra_7; databases_8; algebra_7] →
            r2 ∈ [algebra_7; databases_8; algebra_7] →
            key_of r1 = key_of r2 → grade r1 = grade r2) ∧
  compare_grades [algebra_7; databases_8; algebra_7]
                 [algebra_7; databases_8; algebra_7] = ([], []).
Proof.
  assert (∀ r1 r2, r1 ∈ [algebra_7; databases_8; algebra_7] →
                   r2 ∈ [algebra_7; databases_8; algebra_7] →
                   key_of r1 = key_of r2 → grade r1 = grade r2) as Hp.
  { intros r1 r2 H1 H2.
    repeat (apply elem_of_cons in H1 as [->|H1]);
      try (by apply elem_of_nil in H1);
      repeat (apply elem_of_cons in H2 as [->|H2]);
      try (by apply elem_of_nil in H2);
      by vm_compute. }
  split; [exact Hp|].
  exact (compare_grades_self [algebra_7; databases_8; algebra_7] Hp).
Defined.

(** C5: [compare_grades] puts a current record in the new list exactly when
    its key is absent from the previous-grade map, and emits a change entry
    (old grade, new grade, subject, year, semester and the current record's
    date) exactly when the key is present with a grade different from the
    current one; a record whose stored grade equals its grade yields nothing,
    and both lists follow the order of the current sequence. *)
Theorem compare_grades_classification (old cur : list Grade) :
  (compare_grades old cur).1 =
    filter (λ g, old_grades_map old !! key_of g = None) cur ∧
  (compare_grades old cur).2 =
    (λ g, {| old_grade := default [] (old_grades_map old !! key_of g);
             new_grade := grade g;
             ch_subject := subject g;
             ch_year := year g;
             ch_semester := semester g;
             ch_date := date g |}) <$>
      filter (λ g, is_Some (old_grades_map old !! key_of g) ∧
                   old_grades_map old !! key_of g ≠ Some (grade g)) cur.
Proof. split; [apply compare_grades_new|apply compare_grades_changed]. Qed.

(** C7: against an empty previous snapshot every current record is new, in
    order, and nothing is changed; this holds for every current sequence, in
    particular for every non-empty one. *)
Theorem compare_grades_first_run (cur : list Grade) :
  compare_grades [] cur = (cur, []).
Proof.
  rewrite (surjective_pairing (compare_grades _ _)).
  rewrite compare_grades_new, compare_grades_changed.
  rewrite filter_all by done.
  rewrite filter_none; [done|]. by intros g _ [[? ?] _].
Qed.

(** C10: every occurrence of a current record is classified on its own
    against the previous-grade map: the diff of a concatenation is the
    concatenation of the diffs, and [n] copies of one record give [n] new
    entries, [n] change entries or nothing. *)
Theorem compare_grades_no_dedup (old : list Grade) :
  (∀ cur1 cur2,
     compare_grades old (cur1 ++ cur2) =
       ((compare_grades old cur1).1 ++ (compare_grades old cur2).1,
        (compare_grades old cur1).2 ++ (compare_grades old cur2).2)) ∧
  (∀ g n,
     compare_grades old (replicate n g) =
       match old_grades_map old !! key_of g with
       | None => (replicate n g, [])
       | Some stored =>
           if decide (stored = grade g) then ([], [])
           else ([], replicate n (change_entry stored g))
       end).
Proof.
  split; [apply compare_grades_app|].
  intros g n. induction n as [|n IH].
  - simpl. destruct (_ !! _); [by case_decide|done].
  - simpl. rewrite compare_grades_cons, IH. unfold compare_step.
    destruct (old_grades_map old !! key_of g) as [stored|]; [|done].
    by destruct (decide (stored = grade g)); case_decide.
Qed.

(** Two copies of a record unknown to the previous snapshot give two new
    entries; two copies of a record whose grade moved give two change
    entries. *)
Example compare_grades_duplicates_in_current :
  compare_grades [algebra_7] [databases_8; databases_8] =
    ([databases_8; databases_8], []) ∧
  compare_grades [algebra_7] [algebra_9; algebra_9] =
    ([], [change_entry (py "7") algebra_9; change_entry (py "7") algebra_9]).
Proof.
  split; rewrite (surjective_pairing (compare_grades _ _));
    rewrite compare_grades_new, compare_grades_changed;
    rewrite !filter_cons, !filter_nil, !old_grades_map_lookup; by vm_compute.
Qed.

(** ** The row scan *)

Section row_scan_facts.
Implicit Types (tr : element) (t : node) (w : World).

(** The first element a boolean filter keeps, and what precedes it. *)
Lemma head_filter_Some {A} (f : A → bool) (l : list A) (x : A) :
  head (List.filter f l) = Some x ↔
  ∃ inner outer, l = inner ++ x :: outer ∧ f x = true ∧
                 Forall (λ a, f a = false) inner.
Proof.
  induction l as [|a l IH]; simpl.
  - split; [done|]. intros (inner & outer & E & _). by destruct inner.
  - destruct (f a) eqn:Ha; simpl.
    + split.
      * intros [= ->]. by exists [], l.
      * intros ([|b inner] & outer & E & Hx & Hin); simplify_eq/=; [done|].
        apply Forall_cons in Hin as [? _]. congruence.
    + rewrite IH. split.
      * intros (inner & outer & -> & Hx & Hin).
        exists (a :: inner), outer. by repeat constructor.
      * intros ([|b inner] & outer & E & Hx & Hin); simplify_eq/=;
          [congruence|].
        apply Forall_cons in Hin as [_ ?]. by exists inner, outer.
Qed.

Lemma find_parent_nearest tr t :
  find_parent (py "table") tr = Some t ↔ nearest_table tr t.
Proof. apply head_filter_Some. Qed.

Lemma nearest_table_unique tr t1 t2 :
  nearest_table tr t1 → nearest_table tr t2 → t1 = t2.
Proof.
  rewrite <- !find_parent_nearest. congruence.
Qed.

Lemma has_table_class_carries t :
  has_table_class t = true ↔ carries_class (py "table") t.
Proof.
  unfold has_table_class, tag_class, carries_class.
  destruct (node_attrs t !! py "class") as [raw|]; simpl.
  - rewrite bool_decide_eq_true. split; [by exists raw|].
    by intros (? & [= <-] & ?).
  - split; [done|]. by intros (? & ? & _).
Qed.

(** The filter of the loop, in the words of the page extractor. *)
Lemma row_qualifies_spec tr :
  row_qualifies tr = true ↔
  length (find_all_children (py "td") tr) = 6%nat ∧
  ∃ t, nearest_table tr t ∧ carries_class (py "table") t.
Proof.
  unfold row_qualifies, row_cells.
  rewrite andb_true_iff, Nat.eqb_eq.
  apply and_iff_compat_l.
  destruct (find_parent (py "table") tr) as [t|] eqn:E.
  - rewrite has_table_class_carries. split.
    + intros ?. exists t. by rewrite <- find_parent_nearest.
    + intros (t' & Ht' & ?). apply find_parent_nearest in Ht'. congruence.
  - split; [done|]. intros (t' & Ht' & _).
    apply find_parent_nearest in Ht'. congruence.
Qed.

(** One iteration: a qualifying row appends its record, any other row
    leaves the list alone; no diagnostic is logged. *)
Lemma scan_row_spec (acc : list Grade) tr w :
  scan_row acc tr w =
    (inr (if row_qualifies tr then acc ++ [row_record tr] else acc), w).
Proof.
  unfold scan_row, row_qualifies, row_record, cell, row_cells.
  destruct (length (find_all_children (py "td") tr) =? 6)%nat eqn:Hlen;
    simpl; [|done].
  destruct (find_parent (py "table") tr) as [t|]; [|done].
  destruct (has_table_class t); [|done].
  apply Nat.eqb_eq in Hlen.
  destruct (find_all_children (py "td") tr)
    as [|? [|? [|? [|? [|? [|? [|? ?]]]]]]]; by simplify_eq/=.
Qed.

Lemma scan_loop_spec (rows : list element) (acc : list Grade) w :
  for_each scan_row acc rows w =
    (inr (acc ++ (row_record <$> List.filter row_qualifies rows)), w).
Proof.
  revert acc. induction rows as [|tr rows IH]; intros acc; simpl.
  - by rewrite app_nil_r.
  - unfold mbind, M_bind. rewrite scan_row_spec, IH.
    destruct (row_qualifies tr); simpl; [|done].
    by rewrite <- app_assoc.
Qed.
End row_scan_facts.

(** C4: the row scan emits a record for a row exactly when the row has
    exactly six direct [td] cells and its nearest enclosing [table] carries
    the class [table]: the result is the record of each such row, in document
    order, and nothing else; rows with five or seven cells and rows whose
    nearest table lacks the class are left out. *)
Theorem scan_rows_exactly_qualifying (soup_grades : element) (w : World) :
  (∀ tr, row_qualifies tr = true ↔
         length (find_all_children (py "td") tr) = 6%nat ∧
         ∃ t, nearest_table tr t ∧ carries_class (py "table") t) ∧
  scan_rows soup_grades w =
    (inr (row_record <$>
            List.filter row_qualifies (find_all (py "tr") soup_grades)), w).
Proof.
  split; [apply row_qualifies_spec|].
  unfold scan_rows. by rewrite scan_loop_spec.
Qed.

(** The sample page: of its four rows only the six-cell row of the marked
    table yields a record. *)
Example scan_rows_sample_page :
  row_qualifies <$> find_all (py "tr") (soup_root sample_grades_page) =
    [true; false; false; false] ∧
  scan_rows (soup_root sample_grades_page) fresh_world =
    (inr [ {| year := py "1"; semester := py "2";
              subject := py "Algebra liniara"; type_ := py "E";
              date := py "2024-01-10"; grade := py "9" |} ], fresh_world).
Proof. split; by vm_compute. Qed.

(** ** Stripping and the non-breaking space *)

Section strip_facts.
Implicit Types (s : pystr) (c : N).

Lemma lstrip_elem_of s c : c ∈ lstrip s → c ∈ s.
Proof.
  induction s as [|a s IH]; simpl; [done|].
  destruct (isspace a); [|done]. intros ?. right. by apply IH.
Qed.

Lemma strip_elem_of s c : c ∈ strip s → c ∈ s.
Proof.
  unfold strip, rstrip. rewrite elem_of_reverse. intros H.
  apply lstrip_elem_of in H. rewrite elem_of_reverse in H.
  by apply lstrip_elem_of.
Qed.

Lemma lstrip_head s :
  from_option (λ c, isspace c = false) True (head (lstrip s)).
Proof.
  induction s as [|a s IH]; simpl; [done|].
  by destruct (isspace a) eqn:E.
Qed.

Lemma lstrip_snoc s c :
  isspace c = false → lstrip (s ++ [c]) = lstrip s ++ [c].
Proof.
  intros Hc. induction s as [|a s IH]; simpl; [by rewrite Hc|].
  by destruct (isspace a).
Qed.

Lemma rstrip_cons s c : isspace c = false → rstrip (c :: s) = c :: rstrip s.
Proof.
  intros Hc. unfold rstrip.
  by rewrite reverse_cons, lstrip_snoc, reverse_snoc.
Qed.

Lemma strip_trimmed s : trimmed (strip s).
Proof.
  unfold trimmed, strip. split.
  - pose proof (lstrip_head s) as H.
    destruct (lstrip s) as [|c t]; simpl in *; [done|].
    by rewrite rstrip_cons.
  - unfold rstrip. rewrite last_reverse. apply lstrip_head.
Qed.

Lemma replace_not_elem_of (old new : N) s :
  old ≠ new → old ∉ replace old new s.
Proof.
  intros Hne. unfold replace. rewrite list_elem_of_fmap.
  intros (c & E & _). destruct (N.eqb_spec c old); congruence.
Qed.

Lemma replace_twice (old new : N) s :
  replace old new (replace old new s) = replace old new s.
Proof.
  induction s as [|c s IH]; [done|].
  unfold replace in *. rewrite !fmap_cons, IH. f_equal.
  destruct (c =? old) eqn:E; [by destruct (new =? old)|by rewrite E].
Qed.

Lemma subject_text_no_nbsp (td : node) : nbsp ∉ subject_text td.
Proof.
  unfold subject_text. intros H%strip_elem_of.
  by apply replace_not_elem_of in H.
Qed.

Lemma isspace_nbsp_or_space (a b : N) :
  nbsp_or_space a b → isspace a = isspace b.
Proof. by intros [->|[[-> ->]|[-> ->]]]. Qed.

Lemma lstrip_same s1 s2 :
  same_up_to_nbsp s1 s2 → same_up_to_nbsp (lstrip s1) (lstrip s2).
Proof.
  induction 1 as [|a b s1 s2 Hab Hs IH]; simpl; [constructor|].
  rewrite <- (isspace_nbsp_or_space a b Hab).
  destruct (isspace a); [done|]. by constructor.
Qed.

Lemma strip_same s1 s2 :
  same_up_to_nbsp s1 s2 → same_up_to_nbsp (strip s1) (strip s2).
Proof.
  intros H. unfold strip, rstrip.
  by apply Forall2_reverse, lstrip_same, Forall2_reverse, lstrip_same.
Qed.

Lemma truthy_same s1 s2 : same_up_to_nbsp s1 s2 → truthy s1 = truthy s2.
Proof. by destruct 1. Qed.

Lemma replace_same s1 s2 :
  same_up_to_nbsp s1 s2 → replace nbsp space s1 = replace nbsp space s2.
Proof.
  induction 1 as [|a b s1 s2 Hab Hs IH]; [done|].
  unfold replace in *. rewrite !fmap_cons, IH. f_equal.
  by destruct Hab as [->|[[-> ->]|[-> ->]]].
Qed.

Lemma get_text_strip_same (td1 td2 : node) :
  Forall2 same_up_to_nbsp (all_strings td1) (all_strings td2) →
  same_up_to_nbsp (get_text_strip td1) (get_text_strip td2).
Proof.
  unfold get_text_strip.
  induction 1 as [|s1 s2 l1 l2 Hs Hl IH]; simpl; [constructor|].
  rewrite <- (truthy_same _ _ (strip_same _ _ Hs)).
  destruct (truthy (strip s1)); [|done].
  simpl. apply Forall2_app; [by apply strip_same|done].
Qed.

Lemma subject_text_same (td1 td2 : node) :
  Forall2 same_up_to_nbsp (all_strings td1) (all_strings td2) →
  subject_text td1 = subject_text td2.
Proof.
  intros H. unfold subject_text.
  by rewrite (replace_same _ _ (get_text_strip_same _ _ H)).
Qed.
End strip_facts.

(** C6: every record the row scan produces has a subject without U+00A0 and
    without whitespace at either end (the cell text with each non-breaking
    space replaced by a space, then stripped); and two rows with the same
    year and semester whose subject cells differ only by non-breaking spaces
    versus spaces get the same identity key, so that [compare_grades] looks
    the one up under the key of the other. *)
Theorem subject_normalized_in_key :
  (∀ soup_grades w,
     ∃ grades_list,
       scan_rows soup_grades w = (inr grades_list, w) ∧
       Forall (λ g, (nbsp ∉ subject g) ∧ trimmed (subject g)) grades_list) ∧
  (∀ tr,
     subject (row_record tr) =
       strip (replace nbsp space (get_text_strip (cell tr 2)))) ∧
  (∀ tr1 tr2,
     year (row_record tr1) = year (row_record tr2) →
     semester (row_record tr1) = semester (row_record tr2) →
     Forall2 same_up_to_nbsp (all_strings (cell tr1 2))
                             (all_strings (cell tr2 2)) →
     key_of (row_record tr1) = key_of (row_record tr2) ∧
     old_grades_map [row_record tr1] !! key_of (row_record tr2) =
       Some (grade (row_record tr1))).
Proof.
  split; [|split].
  - intros soup_grades w. eexists. split.
    + unfold scan_rows. apply scan_loop_spec.
    + simpl. apply Forall_fmap, Forall_forall. intros tr _. simpl. split.
      * apply subject_text_no_nbsp.
      * apply strip_trimmed.
  - intros tr. simpl. unfold subject_text. by rewrite replace_twice.
  - intros tr1 tr2 Hy Hs Hsubj.
    assert (key_of (row_record tr1) = key_of (row_record tr2)) as E.
    { unfold key_of. rewrite Hy, Hs. simpl.
      by rewrite (subject_text_same _ _ Hsubj). }
    split; [done|]. rewrite <- E. unfold old_grades_map. simpl.
    apply lookup_insert_eq.
Qed.

Lemma subject_normalized_in_key_witness :
  Forall2 same_up_to_nbsp
    (all_strings (cell (sample_tr algebra_nbsp) 2))
    (all_strings (cell (sample_tr algebra_space) 2)) ∧
  algebra_nbsp ≠ algebra_space ∧
  key_of (row_record (sample_tr algebra_nbsp)) =
    key_of (row_record (sample_tr algebra_space)).
Proof.
  assert (Forall2 same_up_to_nbsp
            (all_strings (cell (sample_tr algebra_nbsp) 2))
            (all_strings (cell (sample_tr algebra_space) 2))) as H.
  { vm_compute.
    repeat match goal with
           | |- Forall2 _ _ _ => constructor
           | |- _ ∨ _ => first [by left | by (right; left)]
           end. }
  split; [exact H|]. split; [by vm_compute|].
  exact (proj1 (proj2 (proj2 subject_normalized_in_key)
                  (sample_tr algebra_nbsp) (sample_tr algebra_space)
                  eq_refl eq_refl H)).
Defined.

(** ** Reasoning about computations *)

Section wp_rules.
Context {A : Type}.
Implicit Types (w : World) (Q : exn + A → World → Prop).

Lemma wp_mono (m : M A) w Q Q' :
  wp m w Q → (∀ r w', Q r w' → Q' r w') → wp m w Q'.
Proof. unfold wp. auto. Qed.

Lemma wp_bind {B} (m : M B) (f : B → M A) w Q :
  wp m w (λ r w', match r with
                  | inl e => Q (inl e) w'
                  | inr b => wp (f b) w' Q
                  end) →
  wp (m ≫= f) w Q.
Proof. unfold wp, mbind, M_bind. by destruct (m w) as [[e|b] w']. Qed.

Lemma wp_ret (a : A) w Q : Q (inr a) w → wp (ret a) w Q.
Proof. done. Qed.

Lemma wp_try_except (body : M A) (handler : exn → M A) w Q :
  wp body w (λ r w', match r with
                     | inl e => wp (handler e) w' Q
                     | inr a => Q (inr a) w'
                     end) →
  wp (try_except body handler) w Q.
Proof. unfold wp, try_except. by destruct (body w) as [[e|a] w']. Qed.
End wp_rules.

Section wp_operations.
Context (env : Env).
Implicit Types (w : World).

Lemma wp_log_message message level w (Q : exn + () → World → Prop) :
  Q (inr ()) {| next_session := next_session w; sent := sent w;
                log := log w ++ [(level, message)] |} →
  wp (log_message message level) w Q.
Proof. done. Qed.

Lemma wp_Session w (Q : exn + nat → World → Prop) :
  Q (inr (next_session w))
    {| next_session := S (next_session w); sent := sent w; log := log w |} →
  wp Session w Q.
Proof. done. Qed.

Lemma wp_post session to payload w (Q : exn + Response → World → Prop) :
  Q (server env (sent w) session {| req_url := to; req_data := payload |})
    {| next_session := next_session w;
       sent := sent w ++ [(session, {| req_url := to; req_data := payload |})];
       log := log w |} →
  wp (post env session to payload) w Q.
Proof. done. Qed.

(** [raise_for_status] raises a [RequestException] on an HTTP error and
    returns otherwise, and leaves the world as it is. *)
Lemma wp_raise_for_status (r : Response) w (Q : exn + () → World → Prop) :
  (http_ok r = false → ∀ msg, Q (inl (RequestException msg)) w) →
  (http_ok r = true → Q (inr ()) w) →
  wp (raise_for_status r) w Q.
Proof.
  intros H1 H2. unfold wp, raise_for_status, raise, ret, http_ok in *.
  destruct (400 <=? status_code r)%Z eqn:E1, (status_code r <? 500)%Z eqn:E2,
    (500 <=? status_code r)%Z eqn:E3, (status_code r <? 600)%Z eqn:E4;
    simpl in *; auto; lia.
Qed.

Lemma wp_getitem (tag : element) key w (Q : exn + pystr → World → Prop) :
  (∀ e, Q (inl e) w) →
  (∀ v, node_attrs (el_node tag) !! key = Some v → Q (inr v) w) →
  wp (getitem tag key) w Q.
Proof.
  intros H1 H2. unfold wp, getitem.
  destruct (node_attrs (el_node tag) !! key); [by apply H2|apply H1].
Qed.

Lemma wp_scan_rows soup_grades w (Q : exn + list Grade → World → Prop) :
  Q (inr (row_record <$> List.filter row_qualifies
                           (find_all (py "tr") soup_grades))) w →
  wp (scan_rows soup_grades) w Q.
Proof. unfold wp, scan_rows. by rewrite scan_loop_spec. Qed.
End wp_operations.

(** One step through a computation: the rule of its head, then the
    projections of the new world. *)
Ltac wp_step :=
  lazymatch goal with
  | |- wp (_ ≫= _) _ _ => apply wp_bind
  | |- wp (ret _) _ _ => apply wp_ret
  | |- wp (try_except _ _) _ _ => apply wp_try_except
  | |- wp (log_message _ _) _ _ => apply wp_log_message
  | |- wp Session _ _ => apply wp_Session
  | |- wp (post _ _ _ _) _ _ => apply wp_post
  | |- wp (raise_for_status _) _ _ =>
      apply wp_raise_for_status; [intros ? ?|intros ?]
  | |- wp (getitem _ _) _ _ => apply wp_getitem; [intros ?|intros ? ?]
  | |- wp (if ?b then _ else _) _ _ => destruct b eqn:?
  | |- wp (match ?x with _ => _ end) _ _ => destruct x eqn:?
  | |- match ?x with _ => _ end => destruct x eqn:?
  end; cbn [next_session sent log].

(** ** The login handshake *)

Section login_facts.
Context (env : Env).
Implicit Types (w : World) (username password : pystr).

Lemma truthy_nonempty (s : pystr) : truthy s = true → s ≠ [].
Proof. by destruct s. Qed.

Lemma raise_for_status_ok (r : Response) w :
  http_ok r = true → raise_for_status r w = (inr (), w).
Proof.
  unfold http_ok, raise_for_status. intros H.
  destruct (400 <=? status_code r)%Z eqn:E1, (status_code r <? 500)%Z eqn:E2,
    (500 <=? status_code r)%Z eqn:E3, (status_code r <? 600)%Z eqn:E4;
    simpl in *; try done; lia.
Qed.

(** Both [except] clauses log one line and return the triple of [None]s. *)
Lemma wp_login_except (e : exn) w (Q : exn + login_result → World → Prop) :
  (∀ line, Q (inr (None, None, None))
             {| next_session := next_session w; sent := sent w;
                log := log w ++ [line] |}) →
  wp (login_except e) w Q.
Proof. intros H. destruct e; apply H. Qed.

(** What the [try] block returns when it returns: the triple of [None]s, or
    the session, the sid and the page of a login that succeeds. *)
Lemma login_try_outcome (session : nat) username password w :
  wp (login_try env session username password) w (λ r _,
    match r with
    | inl _ => True
    | inr r =>
        r = (None, None, None) ∨
        ∃ sid page,
          r = (Some session, Some sid, Some (text page)) ∧ sid ≠ [] ∧
          login_succeeds env session (sent w) username password sid page
    end).
Proof.
  unfold login_try. repeat wp_step; simpl in *; try done; auto; right.
  all: do 2 eexists; split; [done|]; split; [eauto using truthy_nonempty|].
  all: unfold login_succeeds, two_hop_handshake, direct_landing,
         login_answered, form_holds_sid, is_redirect_page, login_request.
  all: first
    [ by (right; eauto 10)
    | left; split; [|done]; repeat first [eexists | split]; try eassumption;
      match goal with
      | H : find_with _ [(_, py "hidSelfSubmit")] _ = _ |- _ => by rewrite H
      end ].
Qed.

(** The [try] block sends the login POST first. *)
Lemma login_try_sent (session : nat) username password w :
  wp (login_try env session username password) w (λ _ w',
    ∃ rest,
      sent w' = sent w ++ (session, login_request username password) :: rest).
Proof.
  unfold login_try. repeat wp_step; simpl; rewrite <- ?app_assoc; by eexists.
Qed.

Lemma login_websinu_returns username password w :
  ∃ r w', login_websinu env username password w = (inr r, w').
Proof.
  cut (wp (login_websinu env username password) w
         (λ r _, ∃ r', r = inr r')).
  { unfold wp. destruct (login_websinu _ _ _ _) as [r w']. simpl.
    intros [r' ->]. eauto. }
  unfold login_websinu. do 3 wp_step.
  eapply wp_mono; [apply login_try_outcome|]. simpl.
  intros [e|r] w' _; [|by eauto].
  apply wp_login_except. eauto.
Qed.

Lemma login_rejected_run username password w (r : Response) :
  credentials_rejected env username password w r →
  login_websinu env username password w =
    (inr (None, None, None),
     {| next_session := S (next_session w);
        sent := sent w ++ [(next_session w, login_request username password)];
        log := log w ++
          [ (INFO, py "Attempting initial login POST request...");
            (INFO, py "Failed to log into WebSinu. Status Code: "
                     ++ str_of_int (status_code r));
            (INFO, py "Response content (first 500 chars for debugging):"
                     ++ [newline] ++ slice_to 500 (text r)) ] |}).
Proof.
  intros ((Hr & Hok) & Hredir & Htitle).
  unfold login_request, is_redirect_page in *.
  unfold login_websinu, Session, try_except, login_try, mbind, M_bind,
    log_message, post, ret. simpl.
  rewrite Hr, (raise_for_status_ok _ _ Hok), Hredir, Htitle. simpl.
  by rewrite <- !app_assoc.
Qed.

(** The two-hop handshake, up to the test of the title of the final page. *)
Lemma login_two_hop_run username password w sid (final : Response) :
  two_hop_handshake env (next_session w) (sent w) username password sid final →
  ∃ hid_self_submit,
  login_websinu env username password w =
    let w' lines :=
      {| next_session := S (next_session w);
         sent := sent w ++
           [ (next_session w, login_request username password);
             (next_session w,
              {| req_url := roluri_url;
                 req_data := second_post_payload hid_self_submit sid |}) ];
         log := log w ++
           [ (INFO, py "Attempting initial login POST request...");
             (INFO, py "Detected JavaScript redirect page. Following...");
             (INFO, py "Extracted intermediate SID: " ++ sid);
             (INFO, py "Sending second POST request to roluri.asp to complete login...") ]
           ++ lines |} in
    if title_is landing_title (parse env (text final)) then
      (inr (Some (next_session w), Some sid, Some (text final)),
       w' [ (INFO, py "Successfully completed login sequence and landed on grades selection page!") ])
    else
      (inr (None, None, None),
       w' [ (INFO, py "Login sequence completed, but title 'Note din sesiunea curenta' not found on final page.");
            (INFO, py "Final Response content (first 500 chars for debugging):"
                     ++ [newline] ++ slice_to 500 (text final)) ]).
Proof.
  intros (r & form & hss & (Hr & Hok) & Hredir & (i & Hform & Hi & Hsid & Htruthy)
          & Hhss & Hfinal & Hok2).
  exists hss.
  unfold login_request, is_redirect_page in *.
  unfold login_websinu, Session, try_except, login_try, mbind, M_bind,
    log_message, post, ret, getitem. simpl.
  rewrite Hr, (raise_for_status_ok _ _ Hok), Hredir, Hform, Hi, Hsid. simpl.
  destruct (find_with (py "input") [(py "name", py "hidSelfSubmit")] form)
    as [j|]; [rewrite Hhss|injection Hhss as <-]; simpl;
    rewrite Htruthy; simpl;
    rewrite Hfinal, (raise_for_status_ok _ _ Hok2); simpl;
    destruct (title_is landing_title (parse env (text final))); simpl;
    by rewrite <- !app_assoc.
Qed.

(** The direct path. *)
Lemma login_direct_run username password w sid (r : Response) :
  direct_landing env (next_session w) (sent w) username password sid r →
  login_websinu env username password w =
    (inr (Some (next_session w), Some sid, Some (text r)),
     {| next_session := S (next_session w);
        sent := sent w ++ [(next_session w, login_request username password)];
        log := log w ++
          [ (INFO, py "Attempting initial login POST request...");
            (INFO, py "Successfully logged into WebSinu directly (no JS redirect detected).");
            (INFO, py "Extracted SID from directly landed page: " ++ sid) ] |}).
Proof.
  intros ((Hr & Hok) & Hredir & Htitle & form & i & Hform & Hi & Hsid & Htruthy).
  unfold login_request, is_redirect_page in *.
  unfold login_websinu, Session, try_except, login_try, mbind, M_bind,
    log_message, post, ret, getitem. simpl.
  rewrite Hr, (raise_for_status_ok _ _ Hok), Hredir, Htitle. simpl.
  rewrite Hform, Hi, Hsid. simpl. rewrite Htruthy. simpl.
  by rewrite <- !app_assoc.
Qed.

(** A login that succeeds returns its session, sid and page. *)
Lemma login_succeeds_run username password w sid (page : Response) :
  login_succeeds env (next_session w) (sent w) username password sid page →
  (login_websinu env username password w).1 =
    inr (Some (next_session w), Some sid, Some (text page)).
Proof.
  intros [[H Htitle]|H].
  - destruct (login_two_hop_run _ _ _ _ _ H) as [hss ->]. cbv zeta.
    by rewrite Htitle.
  - by rewrite (login_direct_run _ _ _ _ _ H).
Qed.

(** A title mismatch after the two-hop handshake. *)
Lemma login_title_mismatch_run username password w sid (final : Response) :
  two_hop_title_mismatch env username password w sid final →
  (login_websinu env username password w).1 = inr (None, None, None) ∧
  log (login_websinu env username password w).2 =
    log w ++
    [ (INFO, py "Attempting initial login POST request...");
      (INFO, py "Detected JavaScript redirect page. Following...");
      (INFO, py "Extracted intermediate SID: " ++ sid);
      (INFO, py "Sending second POST request to roluri.asp to complete login...");
      (INFO, py "Login sequence completed, but title 'Note din sesiunea curenta' not found on final page.");
      (INFO, py "Final Response content (first 500 chars for debugging):"
               ++ [newline] ++ slice_to 500 (text final)) ].
Proof.
  intros [H Htitle].
  destruct (login_two_hop_run _ _ _ _ _ H) as [hss ->]. cbv zeta.
  rewrite Htitle. cbn [fst snd log]. by split.
Qed.
End login_facts.

(** ** Fetching the grades *)

Section get_grades_facts.
Context (env : Env).
Implicit Types (w : World).

Lemma wp_get_grades_except (e : exn) w
    (Q : exn + list Grade → World → Prop) :
  (∀ line, Q (inr [])
             {| next_session := next_session w; sent := sent w;
                log := log w ++ [line] |}) →
  wp (get_grades_except e) w Q.
Proof. intros H. destruct e; apply H. Qed.

(** The [try] block sends nothing, or the grades POST alone, with the two
    names taken from the link of the landing page. *)
Lemma get_grades_try_sent (session : nat) (initial_sid html : pystr) w :
  wp (get_grades_try env session initial_sid html) w (λ _ w',
    sent w' = sent w ∨
    ∃ link js_call group1 group2,
      find_view_notes_link (parse env html) = Some link ∧
      node_attrs (el_node link) !! py "href" = Some js_call ∧
      re_search_NoteSesiuneaCurenta js_call = Some (group1, group2) ∧
      sent w' =
        sent w ++
        [ (session,
           {| req_url := grades_post_url;
              req_data :=
                post_payload initial_sid (strip group1) (strip group2) |}) ]).
Proof.
  unfold get_grades_try.
  repeat first [apply wp_scan_rows; cbn [next_session sent log] | wp_step];
    simpl; eauto 10.
Qed.

(** [get_grades] returns a list whatever the portal answers. *)
Lemma get_grades_returns (session : nat) (initial_sid html : pystr) w :
  ∃ grades_list w',
    get_grades env session initial_sid html w = (inr grades_list, w').
Proof.
  cut (wp (get_grades env session initial_sid html) w
         (λ r _, ∃ grades_list, r = inr grades_list)).
  { unfold wp. destruct (get_grades _ _ _ _ _) as [r w']. simpl.
    intros [grades_list ->]. eauto. }
  unfold get_grades, get_grades_try. wp_step.
  repeat first [apply wp_scan_rows; cbn [next_session sent log] | wp_step];
    try (apply wp_get_grades_except; intros ?); eauto.
Qed.
End get_grades_facts.

(** The paths taken on the sample portals. *)
Lemma portal_title_mismatch_context :
  two_hop_title_mismatch portal_title_mismatch (py "student") (py "secret")
    fresh_world (py "abc123") (ok_response roluri_url error_page).
Proof.
  split; [|by vm_compute].
  exists (ok_response login_url redirect_page), redirect_form, (py "roluri.asp").
  split; [by split; vm_compute|]. split; [by vm_compute|].
  split; [|by repeat split; vm_compute].
  exists redirect_sid_input. repeat split; by vm_compute.
Qed.

Lemma portal_rejected_context :
  credentials_rejected portal_rejected (py "student") (py "secret")
    fresh_world (ok_response login_url rejected_page).
Proof. repeat split; by vm_compute. Qed.

Lemma portal_two_hop_context :
  login_succeeds portal_two_hop 0 [] (py "student") (py "secret")
    (py "abc123") (ok_response roluri_url landing_page).
Proof.
  left. split; [|by vm_compute].
  exists (ok_response login_url redirect_page), redirect_form, (py "roluri.asp").
  split; [by split; vm_compute|]. split; [by vm_compute|].
  split; [|by repeat split; vm_compute].
  exists redirect_sid_input. repeat split; by vm_compute.
Qed.

(** C3 (as stated, refuted): a title mismatch after the two-hop handshake and
    a rejection of the credentials return the same value, the triple of
    [None]s, which carries no error type, status or excerpt. *)
Lemma login_failures_same_result :
  two_hop_title_mismatch portal_title_mismatch (py "student") (py "secret")
    fresh_world (py "abc123") (ok_response roluri_url error_page) ∧
  credentials_rejected portal_rejected (py "student") (py "secret")
    fresh_world (ok_response login_url rejected_page) ∧
  (login_websinu portal_title_mismatch (py "student") (py "secret")
     fresh_world).1 = inr (None, None, None) ∧
  (login_websinu portal_rejected (py "student") (py "secret")
     fresh_world).1 = inr (None, None, None).
Proof.
  split; [apply portal_title_mismatch_context|].
  split; [apply portal_rejected_context|].
  split; by vm_compute.
Qed.

(** C3 (amended): [login_websinu] reports every failure by the same untyped
    triple [(None, None, None)]; a title mismatch after the two-hop handshake
    and a rejection of the credentials are told apart by the log only, whose
    last lines hold the first 500 characters of the final page in the first
    case, the HTTP status and the first 500 characters of the body in the
    second; and whatever the portal answers, the function returns. *)
Theorem login_failures_logged (env : Env) (username password : pystr)
    (w : World) :
  (∃ r w', login_websinu env username password w = (inr r, w')) ∧
  (∀ sid final,
     two_hop_title_mismatch env username password w sid final →
     (login_websinu env username password w).1 = inr (None, None, None) ∧
     log (login_websinu env username password w).2 =
       log w ++
       [ (INFO, py "Attempting initial login POST request...");
         (INFO, py "Detected JavaScript redirect page. Following...");
         (INFO, py "Extracted intermediate SID: " ++ sid);
         (INFO, py "Sending second POST request to roluri.asp to complete login...");
         (INFO, py "Login sequence completed, but title 'Note din sesiunea curenta' not found on final page.");
         (INFO, py "Final Response content (first 500 chars for debugging):"
                  ++ [newline] ++ take 500 (text final)) ]) ∧
  (∀ r,
     credentials_rejected env username password w r →
     (login_websinu env username password w).1 = inr (None, None, None) ∧
     log (login_websinu env username password w).2 =
       log w ++
       [ (INFO, py "Attempting initial login POST request...");
         (INFO, py "Failed to log into WebSinu. Status Code: "
                  ++ str_of_int (status_code r));
         (INFO, py "Response content (first 500 chars for debugging):"
                  ++ [newline] ++ take 500 (text r)) ]).
Proof.
  split; [apply login_websinu_returns|]. split.
  - intros sid final H. by apply login_title_mismatch_run.
  - intros r H. by rewrite (login_rejected_run env _ _ _ _ H).
Qed.

Lemma login_failures_logged_witness :
  two_hop_title_mismatch portal_title_mismatch (py "student") (py "secret")
    fresh_world (py "abc123") (ok_response roluri_url error_page) ∧
  (login_websinu portal_title_mismatch (py "student") (py "secret")
     fresh_world).1 = inr (None, None, None) ∧
  credentials_rejected portal_rejected (py "student") (py "secret")
    fresh_world (ok_response login_url rejected_page) ∧
  (login_websinu portal_rejected (py "student") (py "secret")
     fresh_world).1 = inr (None, None, None).
Proof.
  split; [exact portal_title_mismatch_context|].
  split.
  { exact (proj1 (proj1 (proj2 (login_failures_logged portal_title_mismatch
                                  (py "student") (py "secret") fresh_world))
                    _ _ portal_title_mismatch_context)). }
  split; [exact portal_rejected_context|].
  exact (proj1 (proj2 (proj2 (login_failures_logged portal_rejected
                                (py "student") (py "secret") fresh_world))
                  _ portal_rejected_context)).
Defined.

(** C9: [login_websinu] always returns, and returns all or nothing: when the
    login succeeds (by the two-hop handshake ending on the landing page, or
    directly) it returns the session it created, the non-empty sid and the
    HTML of the landing page; in every other case (HTTP error, exception,
    missing form, missing or empty sid, title mismatch) it returns the triple
    [(None, None, None)]. *)
Theorem login_all_or_nothing (env : Env) (username password : pystr)
    (w : World) :
  ∃ r w',
    login_websinu env username password w = (inr r, w') ∧
    ((r = (None, None, None) ∧
      ∀ sid page,
        ¬ login_succeeds env (next_session w) (sent w) username password
            sid page) ∨
     (∃ sid page,
        login_succeeds env (next_session w) (sent w) username password
          sid page ∧
        r = (Some (next_session w), Some sid, Some (text page)) ∧
        sid ≠ [])).
Proof.
  cut (wp (login_websinu env username password) w
         (λ r _, ∃ r', r = inr r' ∧
            (r' = (None, None, None) ∨
             ∃ sid page,
               r' = (Some (next_session w), Some sid, Some (text page)) ∧
               sid ≠ [] ∧
               login_succeeds env (next_session w) (sent w)
                 username password sid page))).
  { unfold wp. destruct (login_websinu _ _ _ _) as [r w'] eqn:E. simpl.
    intros (r' & -> & [->|(sid & page & -> & Hsid & H)]).
    - exists (None, None, None), w'. split; [done|]. left. split; [done|].
      intros sid page H. apply login_succeeds_run in H.
      rewrite E in H. discriminate H.
    - exists (Some (next_session w), Some sid, Some (text page)), w'.
      split; [done|]. right. by exists sid, page. }
  unfold login_websinu. do 3 wp_step.
  eapply wp_mono; [apply login_try_outcome|]. simpl.
  intros [e|r] w' H; [|by eauto].
  apply wp_login_except. eauto.
Qed.

Lemma login_all_or_nothing_witness :
  login_succeeds portal_two_hop 0 [] (py "student") (py "secret")
    (py "abc123") (ok_response roluri_url landing_page) ∧
  (login_websinu portal_two_hop (py "student") (py "secret") fresh_world).1 ≠
    inr (None, None, None) ∧
  (login_websinu portal_two_hop (py "student") (py "secret") fresh_world).1 =
    inr (Some 0%nat, Some (py "abc123"), Some landing_page).
Proof.
  split; [exact portal_two_hop_context|].
  destruct (login_all_or_nothing portal_two_hop (py "student") (py "secret")
              fresh_world) as (r & w' & E & H).
  rewrite E. simpl.
  destruct H as [[_ H]|(sid & page & _ & -> & _)].
  - destruct (H _ _ portal_two_hop_context).
  - split; [discriminate|]. revert E. vm_compute. congruence.
Defined.

(** The sample portals: both handshakes succeed with all three components,
    and a portal that is down gives the triple of [None]s. *)
Example login_sample_portals :
  (login_websinu portal_two_hop (py "student") (py "secret") fresh_world).1 =
    inr (Some 0%nat, Some (py "abc123"), Some landing_page) ∧
  (login_websinu portal_direct (py "student") (py "secret") fresh_world).1 =
    inr (Some 0%nat, Some (py "abc123"), Some landing_page) ∧
  (login_websinu portal_down (py "student") (py "secret") fresh_world).1 =
    inr (None, None, None).
Proof. repeat split; by vm_compute. Qed.

(** ** The payloads on the wire *)

(** C8: the first request of [login_websinu] is the login POST, whose
    payload is exactly [hidSelfSubmit='default.asp'], the username, the
    password and [submit=' Intra ']; and [get_grades] sends nothing or one
    request, the records POST, whose payload is exactly
    [hidSelfSubmit='roluri.asp'], the sid, [hidOperation='N'] and the two
    names, which are the two string arguments matched in the link's
    JavaScript call, stripped. *)
Theorem post_payloads_exact (env : Env) :
  (∀ username password w,
     ∃ rest,
       sent (login_websinu env username password w).2 =
         sent w ++
         (next_session w,
          {| req_url := py "https://websinu.utcluj.ro/note/default.asp";
             req_data := [ (py "hidSelfSubmit", py "default.asp");
                           (py "username", username);
                           (py "password", password);
                           (py "submit", py " Intra ") ] |}) :: rest) ∧
  (∀ session sid html w,
     sent (get_grades env session sid html w).2 = sent w ∨
     ∃ link js_call group1 group2,
       find_view_notes_link (parse env html) = Some link ∧
       node_attrs (el_node link) !! py "href" = Some js_call ∧
       re_search_NoteSesiuneaCurenta js_call = Some (group1, group2) ∧
       sent (get_grades env session sid html w).2 =
         sent w ++
         [ (session,
            {| req_url := py "https://websinu.utcluj.ro/note/roluri.asp";
               req_data := [ (py "hidSelfSubmit", py "roluri.asp");
                             (py "sid", sid);
                             (py "hidOperation", py "N");
                             (py "hidNume_Facultate", strip group1);
                             (py "hidNume_Specializare", strip group2) ] |}) ]).
Proof.
  split.
  - intros username password w.
    change (wp (login_websinu env username password) w (λ _ w',
      ∃ rest, sent w' =
        sent w ++ (next_session w, login_request username password) :: rest)).
    unfold login_websinu. do 3 wp_step.
    eapply wp_mono; [apply login_try_sent|]. simpl.
    intros [e|r] w' H; [|done]. by apply wp_login_except.
  - intros session sid html w.
    change (wp (get_grades env session sid html) w (λ _ w',
      sent w' = sent w ∨
      ∃ link js_call group1 group2,
        find_view_notes_link (parse env html) = Some link ∧
        node_attrs (el_node link) !! py "href" = Some js_call ∧
        re_search_NoteSesiuneaCurenta js_call = Some (group1, group2) ∧
        sent w' =
          sent w ++
          [ (session,
             {| req_url := grades_post_url;
                req_data := post_payload sid (strip group1) (strip group2) |}) ])).
    unfold get_grades. wp_step.
    eapply wp_mono; [apply get_grades_try_sent|]. simpl.
    intros [e|r] w' H; [|done]. by apply wp_get_grades_except.
Qed.

(** The sample portal: the grades POST carries the two names of the link,
    the second one stripped, and the scan of the answer gives one record. *)
Example get_grades_sample_portal :
  get_grades portal_grades 0 (py "abc123") landing_page fresh_world =
    (inr [ {| year := py "1"; semester := py "2";
              subject := py "Algebra liniara"; type_ := py "E";
              date := py "2024-01-10"; grade := py "9" |} ],
     {| next_session := 0;
        sent := [ (0%nat,
                   {| req_url := grades_post_url;
                      req_data := [ (py "hidSelfSubmit", py "roluri.asp");
                                    (py "sid", py "abc123");
                                    (py "hidOperation", py "N");
                                    (py "hidNume_Facultate", py "Automatica");
                                    (py "hidNume_Specializare", py "Calculatoare") ] |}) ];
        log := log (get_grades portal_grades 0 (py "abc123") landing_page
                      fresh_world).2 |}).
Proof. by vm_compute. Qed.

(** ** The examples of the specification *)

(** A grade that moved from 7 to 9 is reported as changed, with the date of
    the current record; a record on a first run is reported as new. *)
Example compare_grades_documented_examples :
  compare_grades [algebra_7] [algebra_9] =
    ([], [ {| old_grade := py "7"; new_grade := py "9";
              ch_subject := py "Algebra"; ch_year := py "1";
              ch_semester := py "1"; ch_date := py "2024-01-10" |} ]) ∧
  compare_grades [] [databases_8] = ([databases_8], []).
Proof.
  split; rewrite (surjective_pairing (compare_grades _ _));
    rewrite compare_grades_new, compare_grades_changed;
    rewrite !filter_cons, !filter_nil, !old_grades_map_lookup; by vm_compute.
Qed.

(** The pattern on the link of the sample landing page, and on a call with
    no second quoted argument. *)
Example re_search_examples :
  re_search_NoteSesiuneaCurenta
    (py "javascript: NoteSesiuneaCurenta('Automatica', 'Calculatoare ')") =
    Some (py "Automatica", py "Calculatoare ") ∧
  re_search_NoteSesiuneaCurenta (py "javascript: NoteSesiuneaCurenta('A', B)") =
    None.
Proof. split; by vm_compute. Qed.

(** ** The pattern of the grades link *)

Section pattern_facts.
Implicit Types (s p t a b ws rest : pystr) (c : N).

Lemma startswith_app p t : startswith p (p ++ t) = true.
Proof. induction p as [|c p IH]; simpl; [done|]. by rewrite N.eqb_refl. Qed.

Lemma startswith_inv p s : startswith p s = true → s = p ++ drop (length p) s.
Proof.
  revert s. induction p as [|c p IH]; intros [|d s]; simpl; try done.
  intros [Hc Hp]%andb_true_iff. apply N.eqb_eq in Hc as ->.
  f_equal. by apply IH.
Qed.

Lemma startswith_cons_ne c d p s : c ≠ d → startswith (c :: p) (d :: s) = false.
Proof. intros H. simpl. by rewrite (proj2 (N.eqb_neq c d)). Qed.

(** [lstrip] drops a run of whitespace in front of a character that is not
    whitespace. *)
Lemma lstrip_whitespace ws c t :
  Forall (λ d, isspace d = true) ws → isspace c = false →
  lstrip (ws ++ c :: t) = c :: t.
Proof.
  intros Hws Hc. induction Hws as [|d ws Hd _ IH]; simpl; [by rewrite Hc|].
  by rewrite Hd.
Qed.

Lemma lstrip_split s :
  ∃ ws, s = ws ++ lstrip s ∧ Forall (λ d, isspace d = true) ws.
Proof.
  induction s as [|c s (ws & E & Hws)]; simpl; [by exists []|].
  destruct (isspace c) eqn:Hc.
  - exists (c :: ws). split; [simpl; congruence|by constructor].
  - by exists [].
Qed.

Lemma startswith_quote_ne (q : string) c s :
  head (py q) = Some 39 → c ≠ 39 → startswith (py q) (c :: s) = false.
Proof.
  destruct (py q) as [|d p]; [done|]. intros [= ->] H.
  by apply startswith_cons_ne.
Qed.

Lemma match_group2_unfold s :
  match_group2 s =
    if startswith (py "')") s then Some []
    else match s with
         | [] => None
         | c :: t => if c =? newline then None else (c ::.) <$> match_group2 t
         end.
Proof. by destruct s. Qed.

Lemma match_group1_unfold s :
  match_group1 s =
    match match_after_group1 s with
    | Some g2 => Some ([], g2)
    | None =>
        match s with
        | [] => None
        | c :: t =>
            if c =? newline then None
            else (λ g, (c :: g.1, g.2)) <$> match_group1 t
        end
    end.
Proof. by destruct s. Qed.

Lemma match_group2_plain b rest :
  Forall plain_char b → match_group2 (b ++ py "')" ++ rest) = Some b.
Proof.
  induction 1 as [|c b [Hq Hn] _ IH].
  - rewrite match_group2_unfold. cbn [app]. by rewrite startswith_app.
  - rewrite match_group2_unfold. cbn [app].
    rewrite startswith_quote_ne by done.
    rewrite (proj2 (N.eqb_neq c newline)) by done. by rewrite IH.
Qed.

Lemma match_after_group1_plain ws b rest :
  Forall (λ d, isspace d = true) ws → Forall plain_char b →
  match_after_group1 (py "'," ++ ws ++ py "'" ++ b ++ py "')" ++ rest) = Some b.
Proof.
  intros Hws Hb. unfold match_after_group1.
  rewrite startswith_app.
  change (drop 2 (py "'," ++ ?t)) with t.
  change (py "'" ++ ?t) with (39 :: t).
  rewrite lstrip_whitespace by done. by apply match_group2_plain.
Qed.

Lemma match_group1_plain a ws b rest :
  Forall plain_char a → Forall (λ d, isspace d = true) ws →
  Forall plain_char b →
  match_group1 (a ++ py "'," ++ ws ++ py "'" ++ b ++ py "')" ++ rest) =
    Some (a, b).
Proof.
  intros Ha Hws Hb. induction Ha as [|c a [Hq Hn] _ IH].
  - rewrite match_group1_unfold. cbn [app].
    by rewrite match_after_group1_plain.
  - rewrite match_group1_unfold. cbn [app]. unfold match_after_group1.
    rewrite startswith_quote_ne by done.
    rewrite (proj2 (N.eqb_neq c newline)) by done. by rewrite IH.
Qed.
End pattern_facts.

Section pattern_search.
Implicit Types (s pre a b ws rest : pystr) (c : N).

Lemma re_search_unfold s :
  re_search_NoteSesiuneaCurenta s =
    match match_here s with
    | Some g => Some g
    | None =>
        match s with
        | [] => None
        | _ :: t => re_search_NoteSesiuneaCurenta t
        end
    end.
Proof. by destruct s. Qed.

(** The search skips a prefix without the first letter of the function
    name. *)
Lemma re_search_skip pre s :
  Forall (λ c, c ≠ 78) pre →
  re_search_NoteSesiuneaCurenta (pre ++ s) = re_search_NoteSesiuneaCurenta s.
Proof.
  induction 1 as [|c pre Hc _ IH]; [done|].
  rewrite re_search_unfold. cbn [app]. unfold match_here.
  change (py "NoteSesiuneaCurenta('") with (78 :: py "oteSesiuneaCurenta('").
  by rewrite startswith_cons_ne.
Qed.

Lemma match_here_call t :
  match_here (py "NoteSesiuneaCurenta('" ++ t) = match_group1 t.
Proof.
  unfold match_here. rewrite startswith_app.
  by change 21%nat with (length (py "NoteSesiuneaCurenta('")); rewrite drop_app_length.
Qed.
End pattern_search.

(** X1: on a link of the expected shape, [javascript: NoteSesiuneaCurenta(]
    followed by two single-quoted arguments without quote or newline,
    separated by a comma and any whitespace, the pattern of [get_grades]
    finds exactly the two arguments, whatever follows the call. *)
Theorem re_search_well_formed_call (a ws b rest : pystr) :
  Forall plain_char a → Forall (λ c, isspace c = true) ws →
  Forall plain_char b →
  re_search_NoteSesiuneaCurenta
    (py "javascript: NoteSesiuneaCurenta('" ++ a ++ py "'," ++ ws ++ py "'"
       ++ b ++ py "')" ++ rest) = Some (a, b).
Proof.
  intros Ha Hws Hb.
  change (py "javascript: NoteSesiuneaCurenta('")
    with (py "javascript: " ++ py "NoteSesiuneaCurenta('").
  rewrite <- app_assoc. rewrite re_search_skip.
  - rewrite re_search_unfold, match_here_call.
    by rewrite match_group1_plain.
  - by apply Forall_forall; vm_compute; intros c Hc ->;
      repeat (apply elem_of_cons in Hc as [Hc|Hc]; [done|]);
      apply elem_of_nil in Hc.
Qed.

Lemma re_search_well_formed_call_witness :
  re_search_NoteSesiuneaCurenta
    (py "javascript: NoteSesiuneaCurenta('" ++ py "Automatica" ++ py "',"
       ++ py " " ++ py "'" ++ py "Calculatoare " ++ py "')" ++ py ";") =
    Some (py "Automatica", py "Calculatoare ").
Proof.
  apply re_search_well_formed_call.
  - apply Forall_forall. intros c Hc. split; intros ->; revert Hc; by vm_compute;
      intros Hc; repeat (apply elem_of_cons in Hc as [Hc|Hc]; [done|]);
      apply elem_of_nil in Hc.
  - by repeat constructor.
  - apply Forall_forall. intros c Hc. split; intros ->; revert Hc; by vm_compute;
      intros Hc; repeat (apply elem_of_cons in Hc as [Hc|Hc]; [done|]);
      apply elem_of_nil in Hc.
Defined.

Section pattern_sound.
Implicit Types (s g : pystr) (c : N).

Lemma match_group2_sound s g :
  match_group2 s = Some g →
  ∃ rest, s = g ++ py "')" ++ rest ∧ newline ∉ g.
Proof.
  revert g. induction s as [|c s IH]; intros g; rewrite match_group2_unfold.
  - destruct (startswith (py "')") []) eqn:E; [|done].
    intros [= <-]. apply startswith_inv in E. eexists. split; [exact E|].
    apply not_elem_of_nil.
  - destruct (startswith (py "')") (c :: s)) eqn:E.
    + intros [= <-]. apply startswith_inv in E. eexists. split; [exact E|].
      apply not_elem_of_nil.
    + destruct (N.eqb_spec c newline) as [|Hc]; [done|].
      destruct (match_group2 s) as [g'|]; [|done]. intros [= <-].
      destruct (IH g' eq_refl) as (rest & -> & Hg). exists rest.
      split; [done|]. by apply not_elem_of_cons.
Qed.

Lemma match_after_group1_sound s (g2 : pystr) :
  match_after_group1 s = Some g2 →
  ∃ ws rest,
    s = py "'," ++ ws ++ py "'" ++ g2 ++ py "')" ++ rest ∧
    Forall (λ c, isspace c = true) ws ∧ (newline ∉ g2).
Proof.
  unfold match_after_group1.
  destruct (startswith (py "',") s) eqn:E; [|done].
  apply startswith_inv in E.
  change (length (py "',")) with 2%nat in E.
  destruct (lstrip_split (drop 2 s)) as (ws & Hws & Hsp).
  destruct (lstrip (drop 2 s)) as [|c r]; [done|].
  destruct (N.eqb_spec c 39) as [->|Hc].
  - intros (rest & -> & Hg)%match_group2_sound.
    exists ws, rest. split; [|done]. rewrite E at 1. by rewrite Hws.
  - destruct c as [|p]; [done|].
    do 6 (try (destruct p as [p|p|]; try done)).
Qed.

Lemma match_group1_sound s (g1 g2 : pystr) :
  match_group1 s = Some (g1, g2) →
  ∃ ws rest,
    s = g1 ++ py "'," ++ ws ++ py "'" ++ g2 ++ py "')" ++ rest ∧
    Forall (λ c, isspace c = true) ws ∧ (newline ∉ g1) ∧ (newline ∉ g2).
Proof.
  revert g1. induction s as [|c s IH]; intros g1; rewrite match_group1_unfold.
  - destruct (match_after_group1 []) as [g|] eqn:E; [|done].
    intros [= <- <-]. apply match_after_group1_sound in E as (ws & rest & E & ? & ?).
    exists ws, rest. split; [done|]. split; [done|]. split; [|done].
    apply not_elem_of_nil.
  - destruct (match_after_group1 (c :: s)) as [g|] eqn:E.
    + intros [= <- <-].
      apply match_after_group1_sound in E as (ws & rest & E & ? & ?).
      exists ws, rest. split; [done|]. split; [done|]. split; [|done].
      apply not_elem_of_nil.
    + destruct (N.eqb_spec c newline) as [|Hc]; [done|].
      destruct (match_group1 s) as [[g1' g2']|]; [|done]. intros [= <- <-].
      destruct (IH g1' eq_refl) as (ws & rest & -> & ? & ? & ?).
      exists ws, rest. split; [done|]. split; [done|]. split; [|done].
      by apply not_elem_of_cons.
Qed.
End pattern_sound.

(** X2: whatever the pattern of [get_grades] finds is there: when the search
    returns two groups, the text holds the function name and an opening
    quote, the first group, a quote and a comma, whitespace, a quote, the
    second group and a closing quote and parenthesis, in this order, and
    neither group holds a newline. *)
Theorem re_search_sound (js_call group1 group2 : pystr) :
  re_search_NoteSesiuneaCurenta js_call = Some (group1, group2) →
  ∃ before ws after,
    js_call = before ++ py "NoteSesiuneaCurenta('" ++ group1 ++ py "',"
                ++ ws ++ py "'" ++ group2 ++ py "')" ++ after ∧
    Forall (λ c, isspace c = true) ws ∧
    (newline ∉ group1) ∧ (newline ∉ group2).
Proof.
  induction js_call as [|c s IH]; rewrite re_search_unfold.
  - destruct (match_here []) as [[g1 g2]|] eqn:E; [|done]. intros [= <- <-].
    unfold match_here in E. destruct (startswith _ _) eqn:Es; [|done].
    apply startswith_inv in Es.
    apply match_group1_sound in E as (ws & rest & E & ? & ? & ?).
    exists [], ws, rest. split; [|done]. rewrite Es at 1. cbn [app].
    by rewrite <- E.
  - destruct (match_here (c :: s)) as [[g1 g2]|] eqn:E.
    + intros [= <- <-].
      unfold match_here in E. destruct (startswith _ _) eqn:Es; [|done].
      apply startswith_inv in Es.
      apply match_group1_sound in E as (ws & rest & E & ? & ? & ?).
      exists [], ws, rest. split; [|done]. rewrite Es at 1. cbn [app].
      by rewrite <- E.
    + intros (before & ws & rest & -> & ? & ? & ?)%IH.
      by exists (c :: before), ws, rest.
Qed.

Lemma re_search_sound_witness :
  ∃ before ws after,
    py "javascript: NoteSesiuneaCurenta('Automatica', 'Calculatoare ')" =
      before ++ py "NoteSesiuneaCurenta('" ++ py "Automatica" ++ py "',"
        ++ ws ++ py "'" ++ py "Calculatoare " ++ py "')" ++ after ∧
    Forall (λ c, isspace c = true) ws ∧
    (newline ∉ py "Automatica") ∧ (newline ∉ py "Calculatoare ").
Proof.
  apply (re_search_sound
           (py "javascript: NoteSesiuneaCurenta('Automatica', 'Calculatoare ')")).
  by vm_compute.
Defined.

(** ** More on the diff engine *)

Section compare_grades_more.
Implicit Types (old cur : list Grade) (g r : Grade).

(** The diff reads the previous snapshot through the map only, and only at
    the keys of the current records. *)
Lemma compare_grades_ext old old' cur :
  (∀ g, g ∈ cur →
        old_grades_map old !! key_of g = old_grades_map old' !! key_of g) →
  compare_grades old cur = compare_grades old' cur.
Proof.
  induction cur as [|g cur IH]; intros H; [done|].
  rewrite !compare_grades_cons, IH by (intros; apply H; by right).
  unfold compare_step. by rewrite (H g) by left.
Qed.

Lemma old_grades_map_consistent old r :
  (∀ r1 r2, r1 ∈ old → r2 ∈ old → key_of r1 = key_of r2 →
            grade r1 = grade r2) →
  r ∈ old → old_grades_map old !! key_of r = Some (grade r).
Proof.
  intros Hc Hr. destruct (old_grades_map_elem_of old r Hr) as (r' & ? & ? & ->).
  f_equal. by apply Hc.
Qed.

(** With unique keys, at most one record has a given key. *)
Lemma filter_key_unique old k :
  NoDup (key_of <$> old) →
  filter (λ r, key_of r = k) old = [] ∨
  ∃ r, filter (λ r, key_of r = k) old = [r].
Proof.
  induction old as [|r old IH]; [by left|].
  rewrite fmap_cons, NoDup_cons. intros [Hr Hnd].
  rewrite filter_cons. destruct (decide (key_of r = k)) as [<-|]; [|by apply IH].
  right. exists r. f_equal. apply filter_none.
  intros r' Hr' E. apply Hr. rewrite <- E. by apply list_elem_of_fmap_2.
Qed.

Lemma old_grades_map_Permutation old old' k :
  old ≡ₚ old' → NoDup (key_of <$> old) →
  old_grades_map old !! k = old_grades_map old' !! k.
Proof.
  intros Hp Hnd. rewrite !old_grades_map_lookup.
  assert (filter (λ r, key_of r = k) old ≡ₚ filter (λ r, key_of r = k) old')
    as Hf by by rewrite Hp.
  destruct (filter_key_unique old k Hnd) as [E|[r E]]; rewrite E in *.
  - by apply Permutation_nil_l in Hf as ->.
  - by apply Permutation_singleton_l in Hf as ->.
Qed.
End compare_grades_more.

(** X3: a record of the previous snapshot whose key no current record has
    plays no part in the diff: with or without it the result is the same, so
    a grade that disappears is never reported. *)
Theorem compare_grades_ignores_disappeared (old1 old2 cur : list Grade)
    (r : Grade) :
  (∀ g, g ∈ cur → key_of g ≠ key_of r) →
  compare_grades (old1 ++ r :: old2) cur = compare_grades (old1 ++ old2) cur.
Proof.
  intros H. apply compare_grades_ext. intros g Hg.
  rewrite !old_grades_map_lookup, !filter_app.
  rewrite filter_cons_False; [done|]. intros E. by apply (H g Hg).
Qed.

Lemma compare_grades_ignores_disappeared_witness :
  compare_grades ([algebra_7] ++ databases_8 :: []) [algebra_9] =
    compare_grades ([algebra_7] ++ []) [algebra_9].
Proof.
  apply compare_grades_ignores_disappeared.
  intros g [->|Hg%elem_of_nil]%elem_of_cons; [by vm_compute|done].
Defined.

(** X4: only the grade is compared: when the previous snapshot is consistent
    (records sharing a key carry one grade) and every current record has a
    previous record with its key and its grade, nothing is reported,
    whatever the types and dates of the current records. *)
Theorem compare_grades_tracks_grade_only (old cur : list Grade) :
  (∀ r1 r2, r1 ∈ old → r2 ∈ old → key_of r1 = key_of r2 →
            grade r1 = grade r2) →
  (∀ g, g ∈ cur → ∃ r, r ∈ old ∧ key_of r = key_of g ∧ grade r = grade g) →
  compare_grades old cur = ([], []).
Proof.
  intros Hc Hcur. rewrite (surjective_pairing (compare_grades _ _)).
  rewrite compare_grades_new, compare_grades_changed.
  assert (∀ g, g ∈ cur → old_grades_map old !! key_of g = Some (grade g)) as Hl.
  { intros g (r & Hr & <- & <-)%Hcur. by apply old_grades_map_consistent. }
  rewrite !filter_none; [done| |].
  - intros g Hg [_ Hne]. by apply Hne, Hl.
  - intros g Hg. by rewrite Hl.
Qed.

Lemma compare_grades_tracks_grade_only_witness :
  compare_grades [algebra_7; databases_8]
    [ {| year := py "1"; semester := py "1"; subject := py "Algebra";
         type_ := py "C"; date := py "2025-06-30"; grade := py "7" |} ] =
    ([], []).
Proof.
  apply compare_grades_tracks_grade_only.
  - intros r1 r2 H1 H2.
    repeat (apply elem_of_cons in H1 as [->|H1]);
      try (by apply elem_of_nil in H1);
      repeat (apply elem_of_cons in H2 as [->|H2]);
      try (by apply elem_of_nil in H2);
      by vm_compute.
  - intros g [->|Hg%elem_of_nil]%elem_of_cons; [|done].
    exists algebra_7. split; [by left|]. by vm_compute.
Defined.

(** X5: every change entry pairs two different grades, the new one of a
    current record and the old one of a previous record with the same
    key. *)
Theorem compare_grades_changed_entries (old cur : list Grade) :
  Forall (λ c, old_grade c ≠ new_grade c ∧
               ∃ g r, g ∈ cur ∧ r ∈ old ∧ key_of r = key_of g ∧
                      c = change_entry (grade r) g)
         (compare_grades old cur).2.
Proof.
  rewrite compare_grades_changed. apply Forall_fmap, Forall_forall.
  intros g [[[stored Hs] Hne] Hg]%list_elem_of_filter. simpl.
  rewrite Hs in *. simpl. split; [congruence|].
  rewrite old_grades_map_lookup in Hs.
  destruct (last _) as [r|] eqn:E; [|done]. injection Hs as <-.
  apply last_Some_elem_of, list_elem_of_filter in E as [? ?].
  by exists g, r.
Qed.

(** X6: when the keys of the previous snapshot are unique, its order does
    not matter: a permutation of it gives the same diff. *)
Theorem compare_grades_Permutation (old old' cur : list Grade) :
  NoDup (key_of <$> old) → old ≡ₚ old' →
  compare_grades old cur = compare_grades old' cur.
Proof.
  intros Hnd Hp. apply compare_grades_ext. intros g _.
  by apply old_grades_map_Permutation.
Qed.

Lemma compare_grades_Permutation_witness :
  compare_grades [algebra_7; databases_8] [algebra_9] =
    compare_grades [databases_8; algebra_7] [algebra_9].
Proof.
  apply compare_grades_Permutation.
  - apply (bool_decide_unpack _). by vm_compute.
  - apply perm_swap.
Defined.

(** ** More on the login handshake *)

Section login_more.
Context (env : Env).
Implicit Types (w : World) (username password : pystr).

(** The message of the [HTTPError] that [raise_for_status] raises. *)
Lemma raise_for_status_error (r : Response) w :
  http_ok r = false →
  ∃ kind,
    raise_for_status r w =
      (inl (RequestException
              (str_of_int (status_code r) ++ kind ++ reason r
                 ++ py " for url: " ++ url r)), w) ∧
    (kind = py " Client Error: " ∨ kind = py " Server Error: ").
Proof.
  unfold http_ok, raise_for_status. intros H.
  destruct (400 <=? status_code r)%Z eqn:E1, (status_code r <? 500)%Z eqn:E2,
    (500 <=? status_code r)%Z eqn:E3, (status_code r <? 600)%Z eqn:E4;
    simpl in *; try done; try lia;
    first [ by exists (py " Client Error: "); auto
          | by exists (py " Server Error: "); auto ].
Qed.

(** The session sends the login POST, then at most the second POST of the
    two-hop handshake. *)
Lemma login_try_requests (session : nat) username password w :
  wp (login_try env session username password) w (λ _ w',
    sent w' = sent w ++ [(session, login_request username password)] ∨
    ∃ hid_self_submit sid,
      sid ≠ [] ∧
      sent w' = sent w ++
        [ (session, login_request username password);
          (session, {| req_url := roluri_url;
                       req_data := second_post_payload hid_self_submit sid |}) ]).
Proof.
  unfold login_try. repeat wp_step; simpl; rewrite <- ?app_assoc; auto;
    right; do 2 eexists; eauto using truthy_nonempty.
Qed.
End login_more.

(** X7: when the login POST fails, by an exception of the transport or by a
    4xx or 5xx status, [login_websinu] returns [(None, None, None)] after
    this one request, and logs the error at level ERROR; for an HTTP status
    the line starts with the status code. *)
Theorem login_http_failure (env : Env) (username password : pystr)
    (w : World) :
  (∀ e,
     server env (sent w) (next_session w) (login_request username password)
       = inl e →
     login_websinu env username password w =
       (inr (None, None, None),
        {| next_session := S (next_session w);
           sent := sent w ++ [(next_session w, login_request username password)];
           log := log w ++
             [ (INFO, py "Attempting initial login POST request...");
               (ERROR,
                match e with
                | RequestException msg =>
                    py "A network or HTTP error occurred during login: " ++ msg
                | OtherException msg =>
                    py "An unexpected error occurred during login sequence: "
                      ++ msg
                end) ] |})) ∧
  (∀ r,
     server env (sent w) (next_session w) (login_request username password)
       = inr r →
     http_ok r = false →
     ∃ detail,
       login_websinu env username password w =
         (inr (None, None, None),
          {| next_session := S (next_session w);
             sent := sent w ++ [(next_session w, login_request username password)];
             log := log w ++
               [ (INFO, py "Attempting initial login POST request...");
                 (ERROR,
                  py "A network or HTTP error occurred during login: "
                    ++ str_of_int (status_code r) ++ detail) ] |})).
Proof.
  split.
  - intros e He. unfold login_request in He.
    unfold login_websinu, Session, try_except, login_try, mbind, M_bind,
      log_message, post, ret. cbn [next_session sent log].
    rewrite He. cbn [next_session sent log].
    destruct e; cbn [login_except]; unfold mbind, M_bind, log_message, ret;
      cbn [next_session sent log exn_str]; by rewrite <- !app_assoc.
  - intros r Hr Hok. unfold login_request in Hr.
    unfold login_websinu, Session, try_except, login_try, mbind, M_bind,
      log_message, post, ret. cbn [next_session sent log].
    rewrite Hr. cbn [next_session sent log].
    destruct (raise_for_status_error r
      {| next_session := S (next_session w);
         sent := sent w ++
           [(next_session w,
             {| req_url := login_url;
                req_data := login_payload username password |})];
         log := log w ++ [(INFO, py "Attempting initial login POST request...")]
      |} Hok) as (kind & -> & _).
    eexists. cbn [login_except]. unfold mbind, M_bind, log_message, ret.
    cbn [next_session sent log exn_str]. by rewrite <- !app_assoc.
Qed.

Lemma login_http_failure_witness :
  (login_websinu portal_down (py "student") (py "secret") fresh_world).1 =
    inr (None, None, None) ∧
  log (login_websinu portal_down (py "student") (py "secret") fresh_world).2 =
    [ (INFO, py "Attempting initial login POST request...");
      (ERROR, py "A network or HTTP error occurred during login: Connection refused") ].
Proof.
  rewrite (proj1 (login_http_failure portal_down (py "student") (py "secret")
                    fresh_world)
             (RequestException (py "Connection refused")) eq_refl).
  split; by vm_compute.
Defined.

(** X8: when the form of the auto-submit page has a [sid] field without a
    [value] attribute, indexing it raises; the last [except] clause catches
    the error: [login_websinu] sends no second request, logs the missing
    key at level ERROR and returns [(None, None, None)]. *)
Theorem login_sid_without_value (env : Env) (username password : pystr)
    (w : World) (r : Response) (form i : element) :
  login_answered env (next_session w) (sent w) username password r →
  is_redirect_page r = true →
  find_frmData (parse env (text r)) = Some form →
  find_with (py "input") [(py "name", py "sid")] form = Some i →
  node_attrs (el_node i) !! py "value" = None →
  login_websinu env username password w =
    (inr (None, None, None),
     {| next_session := S (next_session w);
        sent := sent w ++ [(next_session w, login_request username password)];
        log := log w ++
          [ (INFO, py "Attempting initial login POST request...");
            (INFO, py "Detected JavaScript redirect page. Following...");
            (ERROR, py "An unexpected error occurred during login sequence: 'value'") ]
     |}).
Proof.
  intros [Hr Hok] Hredir Hform Hi Hvalue.
  unfold login_request, is_redirect_page in *.
  unfold login_websinu, Session, try_except, login_try, mbind, M_bind,
    log_message, post, ret, getitem, raise. cbn [next_session sent log].
  rewrite Hr. cbn [next_session sent log].
  rewrite (raise_for_status_ok _ _ Hok), Hredir.
  cbn [next_session sent log]. rewrite Hform, Hi, Hvalue.
  cbn [login_except]. unfold mbind, M_bind, log_message, ret.
  cbn [next_session sent log exn_str]. by rewrite <- !app_assoc.
Qed.

Lemma login_sid_without_value_witness :
  (login_websinu portal_sid_without_value (py "student") (py "secret")
     fresh_world).1 = inr (None, None, None) ∧
  sent (login_websinu portal_sid_without_value (py "student") (py "secret")
          fresh_world).2 =
    [(0%nat, login_request (py "student") (py "secret"))] ∧
  last (log (login_websinu portal_sid_without_value (py "student")
               (py "secret") fresh_world).2) =
    Some (ERROR,
          py "An unexpected error occurred during login sequence: 'value'").
Proof.
  rewrite (login_sid_without_value portal_sid_without_value (py "student")
             (py "secret") fresh_world
             (ok_response login_url redirect_page_no_value)
             redirect_form_no_value redirect_sid_input_no_value).
  - by repeat split.
  - split; by vm_compute.
  - by vm_compute.
  - by vm_compute.
  - by vm_compute.
  - by vm_compute.
Defined.

(** X9: [login_websinu] sends one or two requests, through the session it
    creates: the login POST, then at most the POST of the two-hop handshake
    to [roluri.asp], whose payload is exactly [hidSelfSubmit], the non-empty
    [sid] and three empty fields; it never retries. *)
Theorem login_requests (env : Env) (username password : pystr) (w : World) :
  sent (login_websinu env username password w).2 =
    sent w ++ [(next_session w, login_request username password)] ∨
  ∃ hid_self_submit sid,
    sid ≠ [] ∧
    sent (login_websinu env username password w).2 =
      sent w ++
      [ (next_session w, login_request username password);
        (next_session w,
         {| req_url := py "https://websinu.utcluj.ro/note/roluri.asp";
            req_data := [ (py "hidSelfSubmit", hid_self_submit);
                          (py "sid", sid);
                          (py "hidOperation", []);
                          (py "hidNume_Facultate", []);
                          (py "hidNume_Specializare", []) ] |}) ].
Proof.
  change (wp (login_websinu env username password) w (λ _ w',
    sent w' = sent w ++ [(next_session w, login_request username password)] ∨
    ∃ hid_self_submit sid,
      sid ≠ [] ∧
      sent w' = sent w ++
        [ (next_session w, login_request username password);
          (next_session w,
           {| req_url := roluri_url;
              req_data := second_post_payload hid_self_submit sid |}) ])).
  unfold login_websinu. do 3 wp_step.
  eapply wp_mono; [apply login_try_requests|]. simpl.
  intros [e|r] w' H; [|done]. by apply wp_login_except.
Qed.

(** ** More on fetching the grades *)

Section get_grades_more.
Context (env : Env).
Implicit Types (w : World).

(** What the [try] block of [get_grades] returns when it returns: nothing,
    or the scan of the page that answers the grades POST. *)
Lemma get_grades_try_outcome (session : nat) (initial_sid html : pystr) w :
  wp (get_grades_try env session initial_sid html) w (λ r _,
    match r with
    | inl _ => True
    | inr grades_list =>
        grades_list = [] ∨
        ∃ link js_call group1 group2 response,
          initial_sid ≠ [] ∧
          find_view_notes_link (parse env html) = Some link ∧
          node_attrs (el_node link) !! py "href" = Some js_call ∧
          re_search_NoteSesiuneaCurenta js_call = Some (group1, group2) ∧
          server env (sent w) session
            {| req_url := grades_post_url;
               req_data :=
                 post_payload initial_sid (strip group1) (strip group2) |}
            = inr response ∧
          http_ok response = true ∧
          grades_list =
            row_record <$> List.filter row_qualifies
                             (find_all (py "tr") (parse env (text response)))
    end).
Proof.
  unfold get_grades_try.
  repeat first [apply wp_scan_rows; cbn [next_session sent log] | wp_step];
    auto.
  all: right; do 5 eexists; repeat split; eauto.
  all: by destruct initial_sid.
Qed.
End get_grades_more.

(** X10: without a sid [get_grades] gives up at once: it returns the empty
    list, sends no request and logs the error, whatever the landing page. *)
Theorem get_grades_without_sid (env : Env) (session : nat) (html : pystr)
    (w : World) :
  get_grades env session [] html w =
    (inr [],
     {| next_session := next_session w;
        sent := sent w;
        log := log w ++
          [ (INFO, py "Parsing HTML from successful login to find faculty/specialization link.");
            (ERROR, py "Error: Initial SID not provided to get_grades. Cannot proceed.") ]
     |}).
Proof.
  unfold get_grades, try_except, get_grades_try, mbind, M_bind, log_message,
    ret. cbn [next_session sent log truthy negb]. by rewrite <- app_assoc.
Qed.

(** X11: [get_grades] always returns a list, and a non-empty one only as the
    scan of the page that answered its POST: the sid is not empty, the
    landing page has the link, the pattern matches its [href], the portal
    answers the POST without HTTP error, and the list holds the records of
    the qualifying rows of that answer. Every exception ends in the empty
    list. *)
Theorem get_grades_outcome (env : Env) (session : nat)
    (initial_sid html : pystr) (w : World) :
  ∃ grades_list w',
    get_grades env session initial_sid html w = (inr grades_list, w') ∧
    (grades_list = [] ∨
     ∃ link js_call group1 group2 response,
       initial_sid ≠ [] ∧
       find_view_notes_link (parse env html) = Some link ∧
       node_attrs (el_node link) !! py "href" = Some js_call ∧
       re_search_NoteSesiuneaCurenta js_call = Some (group1, group2) ∧
       server env (sent w) session
         {| req_url := grades_post_url;
            req_data := post_payload initial_sid (strip group1) (strip group2) |}
         = inr response ∧
       http_ok response = true ∧
       grades_list =
         row_record <$> List.filter row_qualifies
                          (find_all (py "tr") (parse env (text response)))).
Proof.
  cut (wp (get_grades env session initial_sid html) w (λ r _,
         ∃ grades_list, r = inr grades_list ∧
           (grades_list = [] ∨
            ∃ link js_call group1 group2 response,
              initial_sid ≠ [] ∧
              find_view_notes_link (parse env html) = Some link ∧
              node_attrs (el_node link) !! py "href" = Some js_call ∧
              re_search_NoteSesiuneaCurenta js_call = Some (group1, group2) ∧
              server env (sent w) session
                {| req_url := grades_post_url;
                   req_data :=
                     post_payload initial_sid (strip group1) (strip group2) |}
                = inr response ∧
              http_ok response = true ∧
              grades_list =
                row_record <$> List.filter row_qualifies
                                 (find_all (py "tr")
                                    (parse env (text response)))))).
  { unfold wp. destruct (get_grades _ _ _ _ _) as [r w']. simpl.
    intros (grades_list & -> & H). eauto. }
  unfold get_grades. wp_step.
  eapply wp_mono; [apply get_grades_try_outcome|]. simpl.
  intros [e|r] w' H; [|by eauto].
  apply wp_get_grades_except. eauto.
Qed.

(** ** The fields of an extracted record *)

Section field_facts.
Implicit Types (s : pystr) (l : list pystr).

Lemma trimmed_nil : trimmed [].
Proof. done. Qed.

(** Joining non-empty trimmed strings gives a trimmed string. *)
Lemma concat_trimmed l :
  Forall (λ s, s ≠ [] ∧ trimmed s) l → trimmed (concat l).
Proof.
  induction 1 as [|s l [Hs [Hh Hl]] Hall IH]; [done|].
  cbn [concat]. split.
  - destruct s; [done|]. exact Hh.
  - destruct (concat l) as [|c t] eqn:E.
    + by rewrite app_nil_r.
    + rewrite <- E. rewrite last_app.
      destruct IH as [_ IH]. rewrite E in *.
      by destruct (last (c :: t)) eqn:El; [|apply last_None in El].
Qed.

Lemma get_text_strip_trimmed (n : node) : trimmed (get_text_strip n).
Proof.
  unfold get_text_strip. apply concat_trimmed.
  induction (all_strings n) as [|s l IH]; [constructor|].
  cbn [fmap list_fmap List.filter].
  destruct (truthy (strip s)) eqn:E; [|done].
  constructor; [|done]. split; [by destruct (strip s)|apply strip_trimmed].
Qed.
End field_facts.

(** X12: every field of every record the row scan produces is trimmed: no
    year, semester, subject, type, date or grade starts or ends with
    whitespace. *)
Theorem scan_rows_fields_trimmed (soup_grades : element) (w : World) :
  ∃ grades_list,
    scan_rows soup_grades w = (inr grades_list, w) ∧
    Forall (λ g, trimmed (year g) ∧ trimmed (semester g) ∧
                 trimmed (subject g) ∧ trimmed (type_ g) ∧
                 trimmed (date g) ∧ trimmed (grade g)) grades_list.
Proof.
  eexists. split; [unfold scan_rows; apply scan_loop_spec|].
  simpl. apply Forall_fmap, Forall_forall. intros tr _. simpl.
  repeat split; first [apply get_text_strip_trimmed | apply strip_trimmed].
Qed.

(** ** Reasoning about the whole program *)

Section wpP_rules.
Context {A : Type}.
Implicit Types (s : Machine) (Q : pexn + A → Machine → Prop).

Lemma wpP_mono (m : P A) s Q Q' :
  wpP m s Q → (∀ r s', Q r s' → Q' r s') → wpP m s Q'.
Proof. unfold wpP. auto. Qed.

Lemma wpP_bind {B} (m : P B) (f : B → P A) s Q :
  wpP m s (λ r s', match r with
                   | inl e => Q (inl e) s'
                   | inr b => wpP (f b) s' Q
                   end) →
  wpP (m ≫= f) s Q.
Proof. unfold wpP, mbind, P_mbind. by destruct (m s) as [[e|b] s']. Qed.

Lemma wpP_ret (a : A) s Q : Q (inr a) s → wpP (P_ret a) s Q.
Proof. done. Qed.

Lemma wpP_try_except (body : P A) (handler : pexn → P A) s Q :
  wpP body s (λ r s', match r with
                      | inl e => wpP (handler e) s' Q
                      | inr a => Q (inr a) s'
                      end) →
  wpP (P_try_except body handler) s Q.
Proof. unfold wpP, P_try_except. by destruct (body s) as [[e|a] s']. Qed.

(** A computation on the world changes the world only. *)
Lemma wpP_liftM (m : M A) s Q :
  wp m (world s) (λ r w', Q (match r with
                             | inl e => inl (Exn e)
                             | inr a => inr a
                             end) (with_world w' s)) →
  wpP (liftM m) s Q.
Proof. done. Qed.
End wpP_rules.

Section wpP_operations.
Context (host : Host).
Implicit Types (s : Machine).

Lemma wpP_log message level s (Q : pexn + () → Machine → Prop) :
  Q (inr ()) (with_world (add_log (world s) (level, message)) s) →
  wpP (P_log message level) s Q.
Proof. done. Qed.

(** A loop whose body returns and keeps an invariant returns and keeps
    it. *)
Lemma wpP_for {A} (I : Machine → Prop) (l : list A) (body : A → P unit) s :
  I s →
  (∀ x s0, x ∈ l → I s0 → wpP (body x) s0 (λ r s', r = inr () ∧ I s')) →
  wpP (P_for l body) s (λ r s', r = inr () ∧ I s').
Proof.
  revert s. induction l as [|x l IH]; intros s Hs Hbody; [done|].
  cbn [P_for]. apply wpP_bind.
  eapply wpP_mono; [apply (Hbody x s); [by left|done]|].
  intros r s' [-> Hs']. apply IH; [done|].
  intros y s0 Hy. apply Hbody. by right.
Qed.

(** [send_ntfy_notification] returns, logs one line and hands at most one
    post to [requests.post]. *)
Lemma send_ntfy_notification_run url message title tags s :
  ∃ line,
    send_ntfy_notification host url message title tags s =
      (inr (),
       {| world := add_log (world s) line; files := files s;
          ntfy_posts :=
            ntfy_posts s ++ option_list (ntfy_request url message title tags);
          slept := slept s |}).
Proof.
  unfold send_ntfy_notification, ntfy_request.
  destruct (truthy_opt url); cbn [negb].
  - unfold P_try_except, mbind, P_mbind, encode.
    destruct (utf8 message) as [data|]; cbn [fmap option_fmap option_map].
    + unfold P_ret, requests_post. cbn.
      destruct (ntfy_server host _ _) as [e|r].
      * destruct e; by eexists.
      * unfold liftM, with_world. cbn.
        destruct (http_ok r) eqn:Hok.
        -- rewrite (raise_for_status_ok r _ Hok). cbn. by eexists.
        -- destruct (raise_for_status_error r (world s) Hok) as (kind & -> & _).
           cbn. by eexists.
    + unfold P_raise. cbn. rewrite app_nil_r. by eexists.
  - cbn. rewrite app_nil_r. by eexists.
Qed.

Lemma wpP_send url message title tags s (Q : pexn + () → Machine → Prop) :
  (∀ line,
     Q (inr ())
       {| world := add_log (world s) line; files := files s;
          ntfy_posts :=
            ntfy_posts s ++ option_list (ntfy_request url message title tags);
          slept := slept s |}) →
  wpP (send_ntfy_notification host url message title tags) s Q.
Proof.
  intros HQ. unfold wpP.
  destruct (send_ntfy_notification_run url message title tags s) as [line ->].
  apply HQ.
Qed.
End wpP_operations.

Section snapshot_facts.
Context (host : Host).
Implicit Types (s : Machine) (user_identifier : pystr).

(** [load_previous_grades] returns the grades of the user's file, or the
    empty list, and logs one line. *)
Lemma load_previous_grades_run user_identifier s :
  ∃ line,
    load_previous_grades user_identifier s =
      (inr (stored_grades (files s) user_identifier),
       with_world (add_log (world s) line) s).
Proof.
  unfold load_previous_grades, stored_grades, path_exists, mbind, P_mbind.
  destruct (files s !! user_grades_file user_identifier) as [c|] eqn:E.
  - rewrite bool_decide_eq_true_2 by done.
    unfold P_try_except, json_load, mbind, P_mbind. rewrite E.
    destruct c; by eexists.
  - rewrite bool_decide_eq_false_2 by by intros [? ?]. by eexists.
Qed.

Lemma wpP_load user_identifier s (Q : pexn + list Grade → Machine → Prop) :
  (∀ line, Q (inr (stored_grades (files s) user_identifier))
             (with_world (add_log (world s) line) s)) →
  wpP (load_previous_grades user_identifier) s Q.
Proof.
  intros HQ. unfold wpP.
  destruct (load_previous_grades_run user_identifier s) as [line ->]. apply HQ.
Qed.

(** [save_current_grades] returns, logs one line and writes the user's file
    only. *)
Lemma save_current_grades_run user_identifier (grades : list Grade) s :
  ∃ line,
    save_current_grades host user_identifier grades s =
      (inr (),
       {| world := add_log (world s) line;
          files := files_after_save host user_identifier grades (files s);
          ntfy_posts := ntfy_posts s; slept := slept s |}).
Proof.
  unfold save_current_grades, files_after_save, P_try_except, json_dump,
    mbind, P_mbind.
  destruct (write_failure host _ _) as [[msg [c|]]|]; by eexists.
Qed.

Lemma wpP_save user_identifier (grades : list Grade) s
    (Q : pexn + () → Machine → Prop) :
  (∀ line,
     Q (inr ())
       {| world := add_log (world s) line;
          files := files_after_save host user_identifier grades (files s);
          ntfy_posts := ntfy_posts s; slept := slept s |}) →
  wpP (save_current_grades host user_identifier grades) s Q.
Proof.
  intros HQ. unfold wpP.
  destruct (save_current_grades_run user_identifier grades s) as [line ->].
  apply HQ.
Qed.

(** The name of the snapshot file tells the user. *)
Lemma user_grades_file_inj user1 user2 :
  user_grades_file user1 = user_grades_file user2 → user1 = user2.
Proof.
  unfold user_grades_file. intros H%app_inv_head.
  by apply app_inv_tail in H.
Qed.
End snapshot_facts.

(** ** The effects of the two portal functions *)

Section portal_effects.
Context (env : Env).
Implicit Types (w : World).

(** The [try] block of [login_websinu] creates no session, sends one or two
    requests through its session, and returns all or nothing. *)
Lemma login_try_effects (session : nat) (username password : pystr) w :
  wp (login_try env session username password) w (λ r w',
    next_session w' = next_session w ∧
    (∃ reqs, sent w' = sent w ++ ((session,.) <$> reqs) ∧
             (length reqs ≤ 2)%nat) ∧
    match r with
    | inl _ => True
    | inr r =>
        r = (None, None, None) ∨
        ∃ sid html, r = (Some session, Some sid, Some html) ∧ sid ≠ []
    end).
Proof.
  unfold login_try. repeat wp_step; simpl in *; try done.
  all: split; [done|]; split;
    [ first [ eexists [_]; split; [by rewrite <- ?app_assoc|simpl; lia]
            | eexists [_; _]; split; [by rewrite <- ?app_assoc|simpl; lia] ] |].
  all: auto.
  all: right; do 2 eexists; eauto using truthy_nonempty.
Qed.

Lemma login_websinu_effects (username password : pystr) w :
  wp (login_websinu env username password) w (λ r w',
    next_session w' = S (next_session w) ∧
    (∃ reqs, sent w' = sent w ++ ((next_session w,.) <$> reqs) ∧
             (length reqs ≤ 2)%nat) ∧
    ∃ r', r = inr r' ∧
      (r' = (None, None, None) ∨
       ∃ sid html,
         r' = (Some (next_session w), Some sid, Some html) ∧ sid ≠ [])).
Proof.
  unfold login_websinu. do 3 wp_step.
  eapply wp_mono; [apply login_try_effects|]. cbn [next_session sent log].
  intros [e|r] w' (Hn & Hs & Hr); [|by eauto 10].
  apply wp_login_except. intros line. cbn [next_session sent log].
  split; [done|]. split; [done|]. eauto.
Qed.

Lemma get_grades_try_effects (session : nat) (initial_sid html : pystr) w :
  wp (get_grades_try env session initial_sid html) w (λ _ w',
    next_session w' = next_session w ∧
    ∃ reqs, sent w' = sent w ++ ((session,.) <$> reqs) ∧
            (length reqs ≤ 1)%nat).
Proof.
  unfold get_grades_try.
  repeat first [apply wp_scan_rows; cbn [next_session sent log] | wp_step];
    simpl; (split; [done|]);
    first [ exists []; split; [by rewrite app_nil_r|simpl; lia]
          | eexists [_]; split; [done|simpl; lia] ].
Qed.

Lemma get_grades_effects (session : nat) (initial_sid html : pystr) w :
  wp (get_grades env session initial_sid html) w (λ r w',
    next_session w' = next_session w ∧
    (∃ reqs, sent w' = sent w ++ ((session,.) <$> reqs) ∧
             (length reqs ≤ 1)%nat) ∧
    ∃ grades_list, r = inr grades_list).
Proof.
  unfold get_grades. wp_step.
  eapply wp_mono; [apply get_grades_try_effects|]. cbn [next_session sent log].
  intros [e|r] w' [Hn Hs]; [|by eauto].
  apply wp_get_grades_except. intros line. cbn [next_session sent log].
  split; [done|]. split; [done|]. eauto.
Qed.
End portal_effects.

Section wpP_program.
Context (host : Host).
Implicit Types (s : Machine).

Lemma wpP_login (username password : pystr) s
    (Q : pexn + login_result → Machine → Prop) :
  (∀ r w',
     next_session w' = S (next_session (world s)) →
     (∃ reqs, sent w' = sent (world s)
                ++ ((next_session (world s),.) <$> reqs) ∧
              (length reqs ≤ 2)%nat) →
     (r = (None, None, None) ∨
      ∃ sid html,
        r = (Some (next_session (world s)), Some sid, Some html) ∧ sid ≠ []) →
     Q (inr r) (with_world w' s)) →
  wpP (liftM (login_websinu (portal host) username password)) s Q.
Proof.
  intros HQ. apply wpP_liftM.
  eapply wp_mono; [apply login_websinu_effects|].
  intros r w' (Hn & Hs & r' & -> & Hr). by apply HQ.
Qed.

Lemma wpP_get_grades (session : nat) (initial_sid html : pystr) s
    (Q : pexn + list Grade → Machine → Prop) :
  (∀ grades_list w',
     next_session w' = next_session (world s) →
     (∃ reqs, sent w' = sent (world s) ++ ((session,.) <$> reqs) ∧
              (length reqs ≤ 1)%nat) →
     Q (inr grades_list) (with_world w' s)) →
  wpP (liftM (get_grades (portal host) session initial_sid html)) s Q.
Proof.
  intros HQ. apply wpP_liftM.
  eapply wp_mono; [apply get_grades_effects|].
  intros r w' (Hn & Hs & grades_list & ->). by apply HQ.
Qed.

Lemma wpP_sleep (seconds : Z) s (Q : pexn + () → Machine → Prop) :
  Q (inr ())
    {| world := world s; files := files s; ntfy_posts := ntfy_posts s;
       slept := slept s ++ [seconds] |} →
  wpP (sleep seconds) s Q.
Proof. done. Qed.
End wpP_program.

(** One step through a computation of the whole program. *)
Ltac wpP_step :=
  lazymatch goal with
  | |- wpP (_ ≫= _) _ _ => apply wpP_bind
  | |- wpP (P_ret _) _ _ => apply wpP_ret
  | |- wpP (P_log _ _) _ _ => apply wpP_log
  | |- wpP (send_ntfy_notification _ _ _ _ _) _ _ => apply wpP_send; intros ?
  | |- wpP (load_previous_grades _) _ _ => apply wpP_load; intros ?
  | |- wpP (save_current_grades _ _ _) _ _ => apply wpP_save; intros ?
  | |- wpP (liftM (login_websinu _ _ _)) _ _ =>
      apply wpP_login; intros ? ? ? ? ?
  | |- wpP (liftM (get_grades _ _ _ _)) _ _ =>
      apply wpP_get_grades; intros ? ? ? ?
  | |- wpP (sleep _) _ _ => apply wpP_sleep
  | |- wpP (if ?b then _ else _) _ _ => destruct b eqn:?
  | |- wpP (match ?x with _ => _ end) _ _ => destruct x eqn:?
  | |- match ?x with _ => _ end => destruct x eqn:?
  end;
  cbn [world files ntfy_posts slept with_world add_log next_session sent log]
    in *.

Section notify_facts.
Context (host : Host).
Implicit Types (s : Machine).

Lemma notified_refl s : notified s [] s.
Proof. unfold notified. by rewrite app_nil_r. Qed.

Lemma notified_trans s1 s2 s3 posts1 posts2 :
  notified s1 posts1 s2 → notified s2 posts2 s3 →
  notified s1 (posts1 ++ posts2) s3.
Proof.
  unfold notified. intros (?&?&?&?&?) (?&?&?&?&?).
  repeat split; try congruence. rewrite app_assoc. congruence.
Qed.

(** A loop that sends one notification per element and logs it. *)
Lemma wpP_for_send {A} url (message : A → pystr) (title : pystr) tags
    (note : A → pystr) (l : list A) s :
  wpP (P_for l (λ x,
         send_ntfy_notification host url (message x) title tags;;
         P_log (note x) INFO)) s
    (λ r s', r = inr () ∧
       notified s (omap (λ x, ntfy_request url (message x) title tags) l) s').
Proof.
  revert s. induction l as [|x l IH]; intros s.
  - split; [done|]. apply notified_refl.
  - cbn [P_for]. do 4 wpP_step.
    eapply wpP_mono; [apply IH|]. intros r s' [-> H]. split; [done|].
    cbn [omap list_omap].
    match type of H with
    | notified ?mid _ _ =>
        assert (notified s
                  (option_list (ntfy_request url (message x) title tags)) mid)
          as H1 by (unfold notified; by cbn)
    end.
    pose proof (notified_trans _ _ _ _ _ H1 H) as H2.
    destruct (ntfy_request _ _ _ _); exact H2.
Qed.
End notify_facts.

Section notify_differences_facts.
Context (host : Host).
Implicit Types (s : Machine).

Lemma notified_step s posts1 posts2 s2 s3 :
  notified s posts1 s2 → notified s2 posts2 s3 →
  ∀ posts, posts = posts1 ++ posts2 → notified s posts s3.
Proof. intros H1 H2 posts ->. by eapply notified_trans. Qed.

(** The comparing branch returns, and hands the posts of the differences to
    [requests.post]; it touches nothing else but the log. *)
Lemma notify_differences_run url (user_identifier : pystr)
    (previous_grades current_grades : list Grade) s :
  wpP (notify_differences host url user_identifier previous_grades
         current_grades) s
    (λ r s', r = inr () ∧
       notified s (difference_posts url user_identifier previous_grades
                     current_grades) s').
Proof.
  unfold notify_differences, difference_posts.
  destruct (compare_grades previous_grades current_grades)
    as [new_entries changed_entries].
  apply wpP_bind.
  assert (∀ {A} (l : list A) (body : A → P unit) s0 posts,
            wpP (P_for l body) s0 (λ r s', r = inr () ∧ notified s0 posts s') →
            wpP (if bool_decide (l ≠ []) then P_for l body else P_ret ()) s0
                (λ r s', r = inr () ∧ notified s0 posts s')) as Hif.
  { intros A [|x l] body s0 posts H; [|done]. exact H. }
  eapply wpP_mono; [apply Hif, wpP_for_send|].
  intros r s1 [-> H1]. apply wpP_bind.
  eapply wpP_mono; [apply Hif, wpP_for_send|].
  intros r s2 [-> H2].
  pose proof (notified_trans _ _ _ _ _ H1 H2) as H12.
  destruct new_entries as [|n new_entries], changed_entries as [|c changed_entries];
    cbn [bool_decide decide_rel negb andb].
  all: rewrite ?(bool_decide_eq_false_2 (@nil _ ≠ [])) by (by intros H);
    rewrite ?(bool_decide_eq_true_2 (_ :: _ ≠ [])) by done;
    cbn [negb andb].
  - do 3 wpP_step. split; [done|].
    match goal with
    | |- notified _ _ ?fin =>
        assert (notified s2
                  (option_list
                     (ntfy_request url
                        (py "No new grades found for " ++ user_identifier
                           ++ py ". All good.")
                        default_title (Some [py "check"]))) fin) as H3
          by (unfold notified; by cbn [world files ntfy_posts slept add_log
                                        next_session sent log])
    end.
    by apply (notified_trans _ _ _ _ _ H12 H3).
  - wpP_step. split; [done|]. by rewrite app_nil_r.
  - wpP_step. split; [done|]. by rewrite !app_nil_r in *.
  - wpP_step. split; [done|]. by rewrite app_nil_r.
Qed.
End notify_differences_facts.

Section check_user_facts.
Context (host : Host).
Implicit Types (s : Machine).

(** The check of one user returns; it creates one session and sends at
    most three requests through it, pauses never, hands the post of the
    start and then those of its result to [requests.post], and writes the
    user's file exactly when grades are retrieved. *)
Lemma check_user_run url (user_identifier username password : pystr) s :
  wpP (check_user host url user_identifier username password) s (λ r s',
    r = inr () ∧ slept s' = slept s ∧
    next_session (world s') = S (next_session (world s)) ∧
    (∃ reqs, sent (world s') =
               sent (world s) ++ ((next_session (world s),.) <$> reqs) ∧
             (length reqs ≤ 3)%nat) ∧
    ∃ res,
      (∀ current_grades, res = Retrieved current_grades → current_grades ≠ []) ∧
      files s' = result_files host user_identifier (files s) res ∧
      ntfy_posts s' =
        ntfy_posts s ++ option_list (started_post url user_identifier)
          ++ result_posts url user_identifier
               (stored_grades (files s) user_identifier) res).
Proof.
  unfold check_user. do 6 wpP_step.
  match goal with H : ∃ _, _ |- _ => destruct H as (reqs1 & Hs1 & Hl1) end.
  assert (∀ s0 (Q : pexn + () → Machine → Prop) msg,
    (∀ line1,
       Q (inr ())
         {| world := add_log (add_log (world s0) (ERROR, msg)) line1;
            files := files s0;
            ntfy_posts := ntfy_posts s0
              ++ option_list (login_failed_post url user_identifier);
            slept := slept s0 |}) →
    wpP (P_log msg ERROR;;
         send_ntfy_notification host url
           (py "WebSinu login failed for " ++ user_identifier
              ++ py ". Check credentials or site changes.")
           default_title (Some [py "error"; py "x"])) s0 Q) as Hfail.
  { intros s0 Q msg HQ. do 3 wpP_step. apply HQ. }
  assert (∀ line1,
    (λ (r : pexn + ()) s', r = inr () ∧ slept s' = slept s ∧
       next_session (world s') = S (next_session (world s)) ∧
       (∃ reqs, sent (world s') =
                  sent (world s) ++ ((next_session (world s),.) <$> reqs) ∧
                (length reqs ≤ 3)%nat) ∧
       ∃ res,
         (∀ current_grades, res = Retrieved current_grades →
                            current_grades ≠ []) ∧
         files s' = result_files host user_identifier (files s) res ∧
         ntfy_posts s' =
           ntfy_posts s ++ option_list (started_post url user_identifier)
             ++ result_posts url user_identifier
                  (stored_grades (files s) user_identifier) res)
      (inr ())
      {| world := add_log (add_log w' (ERROR,
                    py "Login failed for user '" ++ user_identifier
                      ++ py "'. Cannot proceed to get grades.")) line1;
         files := files s;
         ntfy_posts := (ntfy_posts s
            ++ option_list
                 (ntfy_request url
                    (py "Agent started checking for user '" ++ user_identifier
                       ++ py "'.")
                    (py "Agent Status") (Some [py "robot"; py "sync"])))
            ++ option_list (login_failed_post url user_identifier);
         slept := slept s |}) as Hfailed.
  { intros line1. cbn [world files ntfy_posts slept add_log next_session sent log].
    split; [done|]. split; [done|]. split; [done|]. split.
    { exists reqs1. split; [done|lia]. }
    exists LoginFailed. split; [done|]. split; [done|].
    by rewrite <- app_assoc. }
  match goal with H : _ ∨ _ |- _ => destruct H as [->|(sid & html & -> & Hsid)] end.
  { cbn beta iota. apply Hfail. intros line1. apply Hfailed. }
  cbn beta iota.
  destruct sid as [|c sid]; [done|].
  destruct html as [|d html].
  { apply Hfail. intros line1. apply Hfailed. }
  do 4 wpP_step.
  match goal with H : ∃ _, _ |- _ => destruct H as (reqs2 & Hs2 & Hl2) end.
  assert (∃ reqs, sent w'0 =
            sent (world s) ++ ((next_session (world s),.) <$> reqs) ∧
          (length reqs ≤ 3)%nat) as Hreqs.
  { exists (reqs1 ++ reqs2). rewrite fmap_app, length_app.
    split; [|lia]. rewrite app_assoc. congruence. }
  assert (next_session w'0 = S (next_session (world s))) as Hns by congruence.
  wpP_step.
  - (* grades retrieved *)
    apply bool_decide_eq_true in Heqb.
    do 4 wpP_step.
    + (* there are previous grades *)
      apply bool_decide_eq_true in Heqb0.
      eapply wpP_mono; [apply notify_differences_run|].
      intros r s1 [-> (Hf & Hsl & Hn & Hse & Hp)].
      cbn [world files ntfy_posts slept with_world add_log next_session sent log]
        in Hf, Hsl, Hn, Hse, Hp.
      wpP_step.
      split; [done|]. split; [done|]. split; [congruence|].
      split; [by rewrite Hse|].
      exists (Retrieved grades_list). split; [by intros ? [= <-]|].
      cbn [result_files result_posts]. rewrite Hf. split; [done|].
      rewrite Hp, <- app_assoc.
      by destruct (stored_grades (files s) user_identifier).
    + (* first run *)
      apply bool_decide_eq_false in Heqb0.
      do 4 wpP_step.
      split; [done|]. split; [done|]. split; [done|]. split; [done|].
      exists (Retrieved grades_list). split; [by intros ? [= <-]|].
      cbn [result_files result_posts]. split; [done|].
      rewrite <- app_assoc.
      destruct (stored_grades (files s) user_identifier); [done|].
      by destruct Heqb0.
  - (* no grade *)
    do 3 wpP_step.
    split; [done|]. split; [done|]. split; [done|]. split; [done|].
    exists NoGrades. split; [done|]. split; [done|]. by rewrite <- app_assoc.
Qed.
End check_user_facts.

Section process_user_facts.
Context (host : Host).
Implicit Types (s : Machine).

(** The body of the loop returns, and does for the user what
    [user_processed] tells. *)
Lemma process_user_run url (users : list pystr) (user_identifier : pystr) s :
  wpP (process_user host url users user_identifier) s (λ r s',
    r = inr () ∧ user_processed host url users user_identifier s s').
Proof.
  unfold process_user, user_processed, has_credentials.
  do 6 wpP_step.
  destruct (truthy_opt (getenv host (user_identifier ++ py "_WEBSINU_USERNAME")));
    [destruct (truthy_opt
                 (getenv host (user_identifier ++ py "_WEBSINU_PASSWORD")))|];
    cbn [negb orb andb].
  - wpP_step. eapply wpP_mono; [apply check_user_run|].
    intros r s1 (-> & Hsl & Hn & Hreq & Hres).
    cbn [world files ntfy_posts slept with_world add_log next_session sent log]
      in *.
    unfold pause_between_users, pauses_after.
    destruct (bool_decide (last users ≠ Some user_identifier)).
    + do 3 wpP_step. split; [done|]. split; [done|]. split; [done|].
      split; [by rewrite Hsl|done].
    + wpP_step. split; [done|]. split; [done|]. split; [done|].
      split; [by rewrite app_nil_r|done].
  - do 3 wpP_step. split; [done|]. unfold notified. by cbn.
  - do 3 wpP_step. split; [done|]. unfold notified. by cbn.
Qed.
End process_user_facts.

Section main_facts.
Context (host : Host).
Implicit Types (s : Machine).

(** The loop over the users, unrolled. *)
Lemma P_for_users (body : pystr → P unit) :
  P_for USER_IDENTIFIERS body =
    (body (py "STUDENT_A");; body (py "STUDENT_B");; P_ret ()).
Proof. done. Qed.

(** The script returns an exit status, and does what [script_run] tells. *)
Lemma main_run s :
  ∃ status, (main host s).1 = inr status ∧
            script_run host s status (main host s).2.
Proof.
  change (wpP (main host) s (λ r s',
            ∃ status, r = inr status ∧ script_run host s status s')).
  unfold main, script_run. cbv zeta.
  do 2 wpP_step.
  destruct (truthy_opt (getenv host (py "NTFY_TOPIC_URL"))); cbn [negb].
  - do 5 wpP_step. rewrite P_for_users. wpP_step.
    eapply wpP_mono; [apply process_user_run|]. intros r s1 [-> H1].
    wpP_step. eapply wpP_mono; [apply process_user_run|]. intros r s2 [-> H2].
    do 6 wpP_step. exists 0%Z. split; [done|]. split; [done|].
    eexists _, s1, s2. split; [|split; [exact H1|split; [exact H2|]]].
    + unfold notified, agent_started_post.
      by cbn [world files ntfy_posts slept with_world add_log next_session
                sent log].
    + unfold notified, batch_complete_post.
      by cbn [world files ntfy_posts slept with_world add_log next_session
                sent log].
  - do 3 wpP_step. exists 1%Z. split; [done|]. split; [done|].
    unfold notified.
    cbn [world files ntfy_posts slept with_world add_log next_session sent log].
    by rewrite app_nil_r.
Qed.
End main_facts.

(** ** Notifications *)

(** X13: [send_ntfy_notification] never raises. It hands at most one post to
    [requests.post], none without a topic URL or for a message that has no
    UTF-8 encoding, and touches nothing else but the log, where it writes
    one line: at level INFO exactly when the post was made and the server
    answered it without an HTTP error. *)
Theorem send_ntfy_notification_posts (host : Host) (url : option pystr)
    (message title : pystr) (tags : option (list pystr)) (s : Machine) :
  wpP (send_ntfy_notification host url message title tags) s (λ r s',
    r = inr () ∧
    notified s (option_list (ntfy_request url message title tags)) s' ∧
    ∃ level text,
      log (world s') = log (world s) ++ [(level, text)] ∧
      (level = INFO ↔
       ∃ rq response,
         ntfy_request url message title tags = Some rq ∧
         ntfy_server host (ntfy_posts s) rq = inr response ∧
         http_ok response = true)).
Proof.
  assert (WARNING ≠ INFO) as HW by (by vm_compute).
  assert (ERROR ≠ INFO) as HE by (by vm_compute).
  unfold wpP, send_ntfy_notification, ntfy_request, notified.
  destruct (truthy_opt url); cbn [negb].
  - unfold P_try_except, mbind, P_mbind, encode.
    destruct (utf8 message) as [data|]; cbn [fmap option_fmap option_map].
    + unfold P_ret, requests_post. cbn.
      destruct (ntfy_server host _ _) as [e|r] eqn:Hserver.
      * destruct e; cbn; (split; [done|]); (split; [done|]);
          eexists _, _; (split; [done|]); (split; [done|]);
          intros (rq & response & [= <-] & ? & _); congruence.
      * unfold liftM, with_world. cbn.
        destruct (http_ok r) eqn:Hok.
        -- rewrite (raise_for_status_ok r _ Hok). cbn.
           split; [done|]. split; [done|]. eexists _, _. split; [done|].
           split; [|done]. intros _. by eexists _, r.
        -- destruct (raise_for_status_error r (world s) Hok) as (kind & -> & _).
           cbn. split; [done|]. split; [done|]. eexists _, _.
           split; [done|]. split; [done|].
           intros (rq & response & [= <-] & ? & ?). congruence.
    + unfold P_raise. cbn. rewrite app_nil_r.
      split; [done|]. split; [done|]. eexists _, _. split; [done|].
      split; [done|]. by intros (rq & response & ? & _).
  - cbn. rewrite app_nil_r. split; [done|]. split; [done|].
    eexists _, _. split; [done|]. split; [done|].
    by intros (rq & response & ? & _).
Qed.

(** ** Snapshots *)

(** X14: what [save_current_grades] saves for a user, when the write does
    not fail, is what [load_previous_grades] loads for that user
    afterwards. *)
Theorem save_load_round_trip (host : Host) (user_identifier : pystr)
    (grades : list Grade) (s : Machine) :
  write_failure host (user_grades_file user_identifier) grades = None →
  (load_previous_grades user_identifier
     (save_current_grades host user_identifier grades s).2).1 = inr grades.
Proof.
  intros Hw.
  destruct (save_current_grades_run host user_identifier grades s)
    as [line ->].
  cbn [snd].
  match goal with
  | |- (load_previous_grades _ ?s1).1 = _ =>
      destruct (load_previous_grades_run user_identifier s1) as [line' ->]
  end.
  cbn [fst snd files]. unfold files_after_save, stored_grades.
  by rewrite Hw, lookup_insert_eq.
Qed.

Lemma save_load_round_trip_witness :
  (load_previous_grades (py "STUDENT_A")
     (save_current_grades (sample_host portal_grades) (py "STUDENT_A")
        [algebra_7; databases_8] fresh_machine).2).1
  = inr [algebra_7; databases_8].
Proof.
  apply (save_load_round_trip (sample_host portal_grades)). reflexivity.
Defined.

(** X15: saving the grades of one user changes what is loaded for no other
    user, whether the write fails or not. *)
Theorem save_keeps_other_users (host : Host) (user_identifier other : pystr)
    (grades : list Grade) (s : Machine) :
  other ≠ user_identifier →
  (load_previous_grades other
     (save_current_grades host user_identifier grades s).2).1
  = (load_previous_grades other s).1.
Proof.
  intros Hne.
  destruct (save_current_grades_run host user_identifier grades s)
    as [line ->].
  cbn [snd].
  match goal with
  | |- (load_previous_grades _ ?s1).1 = _ =>
      destruct (load_previous_grades_run other s1) as [line' ->]
  end.
  destruct (load_previous_grades_run other s) as [line'' ->].
  cbn [fst snd files]. f_equal. unfold files_after_save, stored_grades.
  assert (user_grades_file user_identifier ≠ user_grades_file other) as Hf
    by (by intros ?%user_grades_file_inj).
  destruct (write_failure host _ _) as [[msg [c|]]|];
    by rewrite ?lookup_insert_ne.
Qed.

Lemma save_keeps_other_users_witness :
  (load_previous_grades (py "STUDENT_B")
     (save_current_grades (sample_host portal_grades) (py "STUDENT_A")
        [algebra_7] fresh_machine).2).1
  = (load_previous_grades (py "STUDENT_B") fresh_machine).1.
Proof.
  apply (save_keeps_other_users (sample_host portal_grades)). by vm_compute.
Defined.

(** X16: when the file of a user is missing, is not JSON or cannot be read,
    [load_previous_grades] does not raise: it returns the empty list,
    leaves the files as they are, and logs one line, at level INFO for a
    missing file and at level ERROR otherwise. *)
Theorem load_previous_grades_without_snapshot (user_identifier : pystr)
    (s : Machine) :
  (∀ grades,
     files s !! user_grades_file user_identifier ≠ Some (FileGrades grades)) →
  ∃ text,
    load_previous_grades user_identifier s =
      (inr [],
       with_world
         (add_log (world s)
            (if bool_decide (files s !! user_grades_file user_identifier = None)
             then INFO else ERROR, text)) s).
Proof.
  intros Hfile.
  unfold load_previous_grades, path_exists, mbind, P_mbind.
  destruct (files s !! user_grades_file user_identifier) as [c|] eqn:E.
  - rewrite bool_decide_eq_true_2 by done.
    rewrite bool_decide_eq_false_2 by done.
    unfold P_try_except, json_load, mbind, P_mbind. rewrite E.
    destruct c as [grades| |]; [by destruct (Hfile grades)|by eexists..].
  - rewrite bool_decide_eq_false_2 by by intros [? ?].
    rewrite bool_decide_eq_true_2 by done. by eexists.
Qed.

Lemma load_previous_grades_without_snapshot_witness :
  ∃ text,
    load_previous_grades (py "STUDENT_A") fresh_machine =
      (inr [], with_world (add_log fresh_world (INFO, text)) fresh_machine).
Proof.
  apply (load_previous_grades_without_snapshot (py "STUDENT_A") fresh_machine).
  intros grades. cbn [fresh_machine files]. by rewrite lookup_empty.
Defined.

(** ** One user *)

Section user_facts.
Context (host : Host).
Implicit Types (s : Machine).

(** The files after a check are those before, or those after saving a list
    of grades that is not empty. *)
Lemma result_files_cases (user_identifier : pystr) (fs : gmap pystr FileContent) res :
  (∀ current_grades, res = Retrieved current_grades → current_grades ≠ []) →
  result_files host user_identifier fs res = fs ∨
  ∃ current_grades,
    current_grades ≠ [] ∧
    result_files host user_identifier fs res =
      files_after_save host user_identifier current_grades fs.
Proof.
  intros Hres. destruct res as [| |current_grades]; [by left..|].
  right. exists current_grades. split; [by apply Hres|done].
Qed.

(** What the loop body does to the files. *)
Lemma process_user_files url (users : list pystr) (user_identifier : pystr) s :
  wpP (process_user host url users user_identifier) s (λ _ s',
    files s' = files s ∨
    ∃ current_grades,
      current_grades ≠ [] ∧
      files s' = files_after_save host user_identifier current_grades (files s)).
Proof.
  eapply wpP_mono; [apply process_user_run|].
  intros r s' [_ H]. unfold user_processed in H.
  destruct (has_credentials host user_identifier).
  - destruct H as (_ & _ & _ & res & Hres & -> & _).
    by apply result_files_cases.
  - left. apply H.
Qed.
End user_facts.

(** X17: processing a user never empties the user's snapshot: where writing
    does not fail and grades were stored for the user before, grades are
    stored afterwards, whatever the portal answers. *)
Theorem process_user_keeps_snapshot (host : Host) (url : option pystr)
    (users : list pystr) (user_identifier : pystr) (s : Machine) :
  (∀ grades,
     write_failure host (user_grades_file user_identifier) grades = None) →
  stored_grades (files s) user_identifier ≠ [] →
  wpP (process_user host url users user_identifier) s (λ _ s',
    stored_grades (files s') user_identifier ≠ []).
Proof.
  intros Hw Hstored.
  eapply wpP_mono; [apply process_user_files|].
  intros r s' [->|(current_grades & Hne & ->)]; [done|].
  unfold files_after_save, stored_grades.
  by rewrite Hw, lookup_insert_eq.
Qed.

Lemma process_user_keeps_snapshot_witness :
  wpP (process_user (sample_host portal_down) (Some (py "https://ntfy.sh/grades"))
         USER_IDENTIFIERS (py "STUDENT_A")) machine_with_snapshot (λ _ s',
    stored_grades (files s') (py "STUDENT_A") ≠ []).
Proof.
  apply (process_user_keeps_snapshot (sample_host portal_down)).
  - done.
  - by vm_compute.
Defined.



(** X19: the first check of a user, with no grade stored before, sends at
    most two notifications, that of the start and one about the result, and
    none about a single grade; the user's file is written only with grades
    that were retrieved. *)
Theorem check_user_first_run (host : Host) (url : option pystr)
    (user_identifier username password : pystr) (s : Machine) :
  stored_grades (files s) user_identifier = [] →
  wpP (check_user host url user_identifier username password) s (λ r s',
    r = inr () ∧
    ((files s' = files s ∧
      (ntfy_posts s' =
         ntfy_posts s ++ option_list (started_post url user_identifier)
           ++ option_list (login_failed_post url user_identifier) ∨
       ntfy_posts s' =
         ntfy_posts s ++ option_list (started_post url user_identifier)
           ++ option_list (no_grades_post url user_identifier))) ∨
     ∃ current_grades,
       current_grades ≠ [] ∧
       files s' = files_after_save host user_identifier current_grades (files s) ∧
       ntfy_posts s' =
         ntfy_posts s ++ option_list (started_post url user_identifier)
           ++ option_list (first_run_post url user_identifier current_grades))).
Proof.
  intros Hstored.
  eapply wpP_mono; [apply check_user_run|].
  intros r s' (-> & _ & _ & _ & res & Hres & Hf & Hp).
  split; [done|]. rewrite Hstored in Hp.
  destruct res as [| |current_grades]; cbn [result_files result_posts] in *.
  - left. auto.
  - left. auto.
  - right. exists current_grades. split; [by apply Hres|done].
Qed.

Lemma check_user_first_run_witness :
  stored_grades (files fresh_machine) (py "STUDENT_A") = [] ∧
  wpP (check_user (sample_host portal_grades)
         (Some (py "https://ntfy.sh/grades")) (py "STUDENT_A")
         (py "student") (py "secret")) fresh_machine (λ r s',
    r = inr () ∧
    ((files s' = files fresh_machine ∧
      (ntfy_posts s' =
         ntfy_posts fresh_machine
           ++ option_list (started_post (Some (py "https://ntfy.sh/grades"))
                             (py "STUDENT_A"))
           ++ option_list (login_failed_post
                             (Some (py "https://ntfy.sh/grades"))
                             (py "STUDENT_A")) ∨
       ntfy_posts s' =
         ntfy_posts fresh_machine
           ++ option_list (started_post (Some (py "https://ntfy.sh/grades"))
                             (py "STUDENT_A"))
           ++ option_list (no_grades_post (Some (py "https://ntfy.sh/grades"))
                             (py "STUDENT_A")))) ∨
     ∃ current_grades,
       current_grades ≠ [] ∧
       files s' =
         files_after_save (sample_host portal_grades) (py "STUDENT_A")
           current_grades (files fresh_machine) ∧
       ntfy_posts s' =
         ntfy_posts fresh_machine
           ++ option_list (started_post (Some (py "https://ntfy.sh/grades"))
                             (py "STUDENT_A"))
           ++ option_list (first_run_post (Some (py "https://ntfy.sh/grades"))
                             (py "STUDENT_A") current_grades))).
Proof.
  assert (stored_grades (files fresh_machine) (py "STUDENT_A") = []) as H
    by (by vm_compute).
  split; [exact H|].
  exact (check_user_first_run (sample_host portal_grades)
           (Some (py "https://ntfy.sh/grades"))
           (py "STUDENT_A") (py "student") (py "secret") fresh_machine H).
Defined.






(** ** The whole run *)

Section run_facts.
Context (host : Host).
Implicit Types (s : Machine).




End run_facts.

(** X23: without [NTFY_TOPIC_URL] in the environment, or with an empty one,
    the script ends with exit status 1 before it does anything: no
    notification, no session, no request to the portal, no file, no
    pause. *)
Theorem main_without_topic_url (host : Host) (s : Machine) :
  truthy_opt (getenv host (py "NTFY_TOPIC_URL")) = false →
  (main host s).1 = inr 1%Z ∧
  ntfy_posts (main host s).2 = ntfy_posts s ∧
  files (main host s).2 = files s ∧
  slept (main host s).2 = slept s ∧
  next_session (world (main host s).2) = next_session (world s) ∧
  sent (world (main host s).2) = sent (world s).
Proof.
  intros Hurl. destruct (main_run host s) as (status & -> & H).
  unfold script_run in H. rewrite Hurl in H.
  destruct H as (-> & Hf & Hsl & Hn & Hs & Hp).
  rewrite app_nil_r in Hp. done.
Qed.

Lemma main_without_topic_url_witness :
  (main (bare_host portal_grades) fresh_machine).1 = inr 1%Z ∧
  ntfy_posts (main (bare_host portal_grades) fresh_machine).2 = [].
Proof.
  destruct (main_without_topic_url (bare_host portal_grades) fresh_machine)
    as (H1 & H2 & _); [by vm_compute|].
  split; [exact H1|exact H2].
Defined.




